(** * Students API (src/api.py): a shallow embedding and its properties

    The program is one Flask module: a [Student] table reached through
    Flask-SQLAlchemy, a marshmallow schema, and eleven view functions.
    The embedding keeps the shape of the source:

    - a JSON value and the Python [dict] a request body decodes to;
    - the [student] table as a finite map from primary key to row, with the
      auto-increment counter next to it;
    - an in-memory [Student] instance whose attributes are either still the
      loaded column values or values assigned by a view;
    - [save] and [delete] as the unit of work they trigger (flush, then
      commit), raising where the column declarations of the source make the
      engine refuse the write;
    - the view functions, statement by statement, in an exception monad;
    - the URL map with the rule strings and method lists of the decorators.

    What a view returns is the pair [(body, status)] of its [return]
    statement; how the framework renders that pair is outside the model.
    The conversion the database driver applies to a value whose JSON type
    is not the column's type is a parameter of the development. *)

From Stdlib Require Import ZArith String Ascii List Lia.
From stdpp Require Import base option gmap strings fin_maps.

Set Warnings "-register-all".
Open Scope Z_scope.

(** ** JSON values and request bodies *)

(** A decoded JSON value, as [request.get_json()] hands it to a view
    (numbers are integers; floating point is left out). *)
Inductive json :=
| JNull
| JBool (b : bool)
| JNum (z : Z)
| JStr (s : string)
| JArr (l : list json)
| JObj (l : list (string * json)).

(** [d.get(k)]: the value under [k], [None] when the key is missing. *)
Definition dict_get (d : gmap string json) (k : string) : json :=
  default JNull (d !! k).

(** [d.get(k, dflt)]: the value under [k], [dflt] when the key is missing.
    A key that is present with value [null] yields [None], not [dflt]. *)
Definition dict_get_or (d : gmap string json) (k : string) (dflt : json) : json :=
  default dflt (d !! k).

(** [v is not None] *)
Definition is_not_None (v : json) : bool :=
  match v with JNull => false | _ => true end.

(** ** The table *)

(** One row of table [student]: the five columns of [class Student]. *)
Record Student := mkStudent {
  id : Z;
  name : string;
  email : string;
  age : Z;
  cellphone : string
}.

(** The database: the rows by primary key and the auto-increment counter
    (modelled as advancing on a successful insert only). *)
Record store := mkStore {
  table : gmap Z Student;
  autoinc : Z
}.

(** Some row other than [self] already holds [e] in its [email] column. *)
Definition email_taken (t : gmap Z Student) (self : option Z) (e : string) : Prop :=
  map_Exists (λ k s, Some k ≠ self ∧ email s = e) t.

(** Some row other than [self] already holds [c] in its [cellphone] column. *)
Definition cellphone_taken (t : gmap Z Student) (self : option Z) (c : string) : Prop :=
  map_Exists (λ k s, Some k ≠ self ∧ cellphone s = c) t.

#[global] Instance email_taken_dec t self e : Decision (email_taken t self e) :=
  ltac:(unfold email_taken; apply _).

#[global] Instance cellphone_taken_dec t self c : Decision (cellphone_taken t self c) :=
  ltac:(unfold cellphone_taken; apply _).

(** The range of an [Integer] column (a signed 32-bit INT). *)
Definition int_column (z : Z) : Prop := -2147483648 ≤ z ≤ 2147483647.

(** What the column declarations promise of the row stored under key [k]:
    [id] is the primary key and was issued by the counter; [name],
    [email] and [cellphone] fit [String(120)], [String(120)] and
    [String(13)], [age] fits [Integer]; [email] and [cellphone] are
    [unique]. *)
Definition row_ok (st : store) (k : Z) (s : Student) : Prop :=
  id s = k ∧ k < autoinc st
  ∧ (String.length (name s) ≤ 120)%nat
  ∧ (String.length (email s) ≤ 120)%nat
  ∧ int_column (age s)
  ∧ (String.length (cellphone s) ≤ 13)%nat
  ∧ ¬ email_taken (table st) (Some k) (email s)
  ∧ ¬ cellphone_taken (table st) (Some k) (cellphone s).

(** A well-formed store: every row keeps the promises of its columns. *)
Definition wf_store (st : store) : Prop := map_Forall (row_ok st) (table st).

#[global] Instance row_ok_dec st k s : Decision (row_ok st k s) :=
  ltac:(unfold row_ok, int_column; apply _).

#[global] Instance wf_store_dec st : Decision (wf_store st) :=
  ltac:(unfold wf_store; apply _).

(** ** Exceptions *)

Inductive exn :=
| NotFound            (* werkzeug.exceptions.NotFound, raised by abort(404) *)
| IntegrityError      (* NOT NULL or UNIQUE refused by the engine *)
| DataError           (* value refused by the column type *)
| InvalidRequestError (* session.delete of an instance that is not persistent *)
| StaleDataError      (* UPDATE matched no row *)
| AttributeError      (* attribute access on None *)
| TypeError           (* call or conversion on a value of the wrong type *)
| MethodNotAllowed.   (* werkzeug.exceptions.MethodNotAllowed *)

#[global] Instance exn_ret : MRet (sum exn) := λ A a, inr a.

#[global] Instance exn_bind : MBind (sum exn) := λ A B f m,
  match m with inl e => inl e | inr a => f a end.

(** ** Instances in memory *)

(** An attribute of an instance: the column value it was loaded with, or a
    Python value a view assigned to it and that the next flush will write. *)
Inductive attr (A : Type) :=
| Loaded (a : A)
| Assigned (v : json).
Arguments Loaded {A} a.
Arguments Assigned {A} v.

Definition is_assigned {A} (a : attr A) : bool :=
  match a with Assigned _ => true | Loaded _ => false end.

(** A Python object of class [Student]; [pk] is [None] until the row is
    inserted. *)
Record instance := mkInstance {
  pk : option Z;
  _name : attr string;
  _email : attr string;
  _age : attr Z;
  _cellphone : attr string
}.

(** What a Python variable such as [student] may hold. *)
Inductive pyobj :=
| PyNone
| PyStudent (o : instance).

(** [bool(o)]: [None] is falsy; [db.Model] defines neither [__bool__] nor
    [__len__], so every instance is truthy. *)
Definition truthy (o : pyobj) : bool :=
  match o with PyNone => false | PyStudent _ => true end.

(** The instance the session builds from a row. *)
Definition loaded (s : Student) : instance :=
  mkInstance (Some (id s)) (Loaded (name s)) (Loaded (email s))
             (Loaded (age s)) (Loaded (cellphone s)).

(** [Student(name=..., email=..., age=..., cellphone=...)] *)
Definition Student_init (n e a c : json) : pyobj :=
  PyStudent (mkInstance None (Assigned n) (Assigned e) (Assigned a) (Assigned c)).

(** [student.name = v] and its three siblings. *)
Definition set_name (o : pyobj) (v : json) : exn + pyobj :=
  match o with
  | PyNone => inl AttributeError
  | PyStudent i =>
      inr (PyStudent (mkInstance (pk i) (Assigned v) (_email i) (_age i) (_cellphone i)))
  end.

Definition set_email (o : pyobj) (v : json) : exn + pyobj :=
  match o with
  | PyNone => inl AttributeError
  | PyStudent i =>
      inr (PyStudent (mkInstance (pk i) (_name i) (Assigned v) (_age i) (_cellphone i)))
  end.

Definition set_age (o : pyobj) (v : json) : exn + pyobj :=
  match o with
  | PyNone => inl AttributeError
  | PyStudent i =>
      inr (PyStudent (mkInstance (pk i) (_name i) (_email i) (Assigned v) (_cellphone i)))
  end.

Definition set_cellphone (o : pyobj) (v : json) : exn + pyobj :=
  match o with
  | PyNone => inl AttributeError
  | PyStudent i =>
      inr (PyStudent (mkInstance (pk i) (_name i) (_email i) (_age i) (Assigned v)))
  end.

(** ** Responses and the schema *)

(** The first component of what a view returns. [ErrorPage] stands for the
    page the framework produces for an aborted or crashed request,
    [Options] for its automatic answer to OPTIONS. *)
Inductive body :=
| Text (s : string)
| Json (d : gmap string json)
| JsonList (l : list (gmap string json))
| SwaggerJson
| SwaggerUi
| Options
| ErrorPage.

(** [return body, status] *)
Definition response : Type := body * Z.

(** A marshmallow field, with the attribute it reads. *)
Inductive field :=
| Integer (get : Student → Z)
| Str (get : Student → string).

(** [class StudentSchema(Schema)]: five fields, each under its own name. *)
Definition StudentSchema : list (string * field) :=
  [ ("id", Integer id);
    ("name", Str name);
    ("email", Str email);
    ("age", Integer age);
    ("cellphone", Str cellphone) ]%string.

(** [field.serialize]: an int as a JSON number, a str as a JSON string. *)
Definition serialize (f : field) (s : Student) : json :=
  match f with
  | Integer get => JNum (get s)
  | Str get => JStr (get s)
  end.

(** [schema.dump(obj)]: a flat dict with one key per declared field. *)
Definition dump_with (schema : list (string * field)) (s : Student) : gmap string json :=
  list_to_map ((λ kf, (kf.1, serialize kf.2 s)) <$> schema).

(** [StudentSchema().dump(student)] *)
Definition dump (s : Student) : gmap string json :=
  dump_with StudentSchema s.

(** The row an instance mirrors when nothing is pending on it. *)
Definition persistent_state (i : instance) : option Student :=
  match pk i, _name i, _email i, _age i, _cellphone i with
  | Some k, Loaded n, Loaded e, Loaded a, Loaded c => Some (mkStudent k n e a c)
  | _, _, _, _, _ => None
  end.

(** [serializer.dump(obj)] on a Python object. [None] has none of the
    attributes and dumps to the empty dict. Every dump in the views follows
    a load or a commit; the dump of an instance with pending assignments
    does not occur (lemma [views_never_crash_on_dump]) and is not modelled:
    it raises [TypeError] here. *)
Definition dump_obj (o : pyobj) : exn + gmap string json :=
  match o with
  | PyNone => inr ∅
  | PyStudent i =>
      match persistent_state i with
      | Some s => inr (dump s)
      | None => inl TypeError
      end
  end.

(** ** The engine: a strict instance of the driver's conversions *)

(** A driver and engine in strict mode: a string fits a VARCHAR(len) column
    when it is at most [len] characters long, an integer fits an INT column
    when it is a signed 32-bit number, and nothing else is converted. The
    development is parametric in these two functions; this instance runs it
    on concrete requests. *)
Definition strict_varchar (len : nat) (v : json) : option string :=
  match v with
  | JStr s => if (String.length s <=? len)%nat then Some s else None
  | _ => None
  end.

Definition strict_integer (v : json) : option Z :=
  match v with
  | JNum z => if (-2147483648 <=? z) && (z <=? 2147483647) then Some z else None
  | _ => None
  end.

(** A small table to run requests on: two rows, the second with the empty
    email a PUT without an email key leaves behind. *)
Definition ann : Student := mkStudent 1 "Ann" "ann@example.org" 20 "111".

Definition bob : Student := mkStudent 2 "Bob" "" 21 "222".

Definition two_students : store := mkStore (<[1 := ann]> (<[2 := bob]> ∅)) 3.



(** ** Record store and views *)

Section app.

(** What the driver stores in a [String(len)] column for a Python value that
    is not [None], if it stores anything. *)
Variable to_varchar : nat → json → option string.

(** What the driver stores in an [Integer] column for a Python value that is
    not [None], if it stores anything. *)
Variable to_integer : json → option Z.

(** Python's [int(v)] for a decoded JSON value [v] that is neither an
    integer nor [None], where it is defined (a schema parameter: marshmallow's
    [Integer] field converts with it). *)
Variable py_int : json → option Z.

(** What the engine is assumed to do with a value of the column's own
    type: a string that fits the column, and an integer in the range of
    INT, are stored as they are. *)
Hypothesis varchar_str :
  ∀ len s, (String.length s ≤ len)%nat → to_varchar len (JStr s) = Some s.

Hypothesis integer_num : ∀ z, int_column z → to_integer (JNum z) = Some z.

(** And whatever the engine stores fits the column. *)
Hypothesis varchar_fits :
  ∀ len v s, to_varchar len v = Some s → (String.length s ≤ len)%nat.

Hypothesis integer_fits : ∀ v z, to_integer v = Some z → int_column z.

(** The value a flush writes to a [String(len), nullable=False] column. *)
Definition flush_string (len : nat) (a : attr string) : exn + string :=
  match a with
  | Loaded s => inr s
  | Assigned JNull => inl IntegrityError
  | Assigned v =>
      match to_varchar len v with
      | Some s => inr s
      | None => inl DataError
      end
  end.

(** The value a flush writes to an [Integer, nullable=False] column. *)
Definition flush_integer (a : attr Z) : exn + Z :=
  match a with
  | Loaded z => inr z
  | Assigned JNull => inl IntegrityError
  | Assigned v =>
      match to_integer v with
      | Some z => inr z
      | None => inl DataError
      end
  end.

(** [cls.query.get(id)] *)
Definition query_get (st : store) (id_ : Z) : pyobj :=
  match table st !! id_ with
  | Some s => PyStudent (loaded s)
  | None => PyNone
  end.

(** [cls.query.get_or_404(id)]: [rv = self.get(ident)], abort with 404 when
    [rv is None], else return [rv]. *)
Definition get_or_404 (st : store) (id_ : Z) : exn + pyobj :=
  match query_get st id_ with
  | PyNone => inl NotFound
  | rv => inr rv
  end.

(** [Student.get_all]: every row; the query fixes no order, the model
    lists them in the order of the map. *)
Definition Student_get_all (st : store) : list Student :=
  (map_to_list (table st)).*2.

(** [Student.get_by_id] *)
Definition Student_get_by_id (st : store) (id_ : Z) : exn + pyobj :=
  get_or_404 st id_.

(** [Student.save]: [db.session.add(self); db.session.commit()]. The commit
    flushes the assigned attributes (an INSERT for a new instance, an UPDATE
    of the assigned columns for a persistent one); a column that refuses
    its value or a unique index that is violated raises, and nothing is
    written. After the commit the instance mirrors its row. *)
Definition Student_save (st : store) (o : pyobj) : exn + (pyobj * store) :=
  match o with
  | PyNone => inl AttributeError
  | PyStudent i =>
      n ← flush_string 120 (_name i);
      e ← flush_string 120 (_email i);
      a ← flush_integer (_age i);
      c ← flush_string 13 (_cellphone i);
      if is_assigned (_email i) && bool_decide (email_taken (table st) (pk i) e)
      then inl IntegrityError
      else if is_assigned (_cellphone i)
                && bool_decide (cellphone_taken (table st) (pk i) c)
      then inl IntegrityError
      else
        match pk i with
        | None =>
            let s := mkStudent (autoinc st) n e a c in
            inr (PyStudent (loaded s),
                 mkStore (<[autoinc st := s]> (table st)) (autoinc st + 1))
        | Some k =>
            match table st !! k with
            | None => inl StaleDataError
            | Some _ =>
                let s := mkStudent k n e a c in
                inr (PyStudent (loaded s),
                     mkStore (<[k := s]> (table st)) (autoinc st))
            end
        end
  end.

(** [Student.delete]: [db.session.delete(self); db.session.commit()] *)
Definition Student_delete (st : store) (o : pyobj) : exn + store :=
  match o with
  | PyNone => inl AttributeError
  | PyStudent i =>
      match pk i with
      | None => inl InvalidRequestError
      | Some k => inr (mkStore (delete k (table st)) (autoinc st))
      end
  end.

(** The views. Each takes the store and returns, unless it raises, the
    pair of its [return] statement and the store it leaves. *)

Definition home (st : store) : exn + (response * store) :=
  mret ((Text "<p>Hello from students API!</p>", 200), st).

Definition api_doc_json (st : store) : exn + (response * store) :=
  mret ((SwaggerJson, 200), st).

Definition api_doc_ui (st : store) : exn + (response * store) :=
  mret ((SwaggerUi, 200), st).

Definition api_health_ok (st : store) : exn + (response * store) :=
  mret ((Text "Ok", 200), st).

Definition api_health_bad (st : store) : exn + (response * store) :=
  mret ((Text "Fail", 500), st).

Definition get_all_students (st : store) : exn + (response * store) :=
  let students := Student_get_all st in
  let response := dump <$> students in
  mret ((JsonList response, 200), st).

Definition get_student (id_ : Z) (st : store) : exn + (response * store) :=
  student_info ← Student_get_by_id st id_;
  response ← dump_obj student_info;
  mret ((Json response, 200), st).

Definition add_student (json_data : gmap string json) (st : store)
  : exn + (response * store) :=
  let new_student :=
    Student_init (dict_get json_data "name") (dict_get json_data "email")
                 (dict_get json_data "age") (dict_get json_data "cellphone") in
  '(new_student, st') ← Student_save st new_student;
  data ← dump_obj new_student;
  mret ((Json data, 201), st').

Definition patch_student (id_ : Z) (json_data : gmap string json) (st : store)
  : exn + (response * store) :=
  student ← Student_get_by_id st id_;
  if negb (truthy student) then mret ((Text "Student not found", 404), st)
  else
    student ← (if is_not_None (dict_get json_data "name")
               then set_name student (dict_get json_data "name")
               else mret student);
    student ← (if is_not_None (dict_get json_data "email")
               then set_email student (dict_get json_data "email")
               else mret student);
    student ← (if is_not_None (dict_get json_data "age")
               then set_age student (dict_get json_data "age")
               else mret student);
    student ← (if is_not_None (dict_get json_data "cellphone")
               then set_cellphone student (dict_get json_data "cellphone")
               else mret student);
    match Student_save st student with
    | inl _ => mret ((Text "Fail saving to db", 500), st)
    | inr (student, st') =>
        response ← dump_obj student;
        mret ((Json response, 200), st')
    end.

Definition put_student (id_ : Z) (json_data : gmap string json) (st : store)
  : exn + (response * store) :=
  student ← Student_get_by_id st id_;
  if negb (truthy student) then mret ((Text "Student not found", 404), st)
  else
    student ← set_name student (dict_get_or json_data "name" (JStr ""));
    student ← set_email student (dict_get_or json_data "email" (JStr ""));
    student ← set_age student (dict_get_or json_data "age" (JNum 0));
    student ← set_cellphone student (dict_get_or json_data "cellphone" (JStr ""));
    match Student_save st student with
    | inl _ => mret ((Text "Fail saving to db", 500), st)
    | inr (student, st') =>
        response ← dump_obj student;
        mret ((Json response, 200), st')
    end.

Definition delete_student (id_ : Z) (st : store) : exn + (response * store) :=
  student ← Student_get_by_id st id_;
  if negb (truthy student) then mret ((Text "Student not found", 404), st)
  else
    match Student_delete st student with
    | inl _ => mret ((Text "Fail deleting from db", 500), st)
    | inr st' => mret ((Text "deleted", 200), st')
    end.

(** ** Routing *)

(** An HTTP request: method, path, and the dict [request.get_json()]
    returns (the body is a JSON object). *)
Record request := mkRequest {
  method : string;
  path : string;
  get_json : gmap string json
}.

(** [s.split('/')] *)
Fixpoint split_slash (s : string) : list string :=
  match s with
  | EmptyString => [EmptyString]
  | String c s' =>
      if Ascii.eqb c "/" then EmptyString :: split_slash s'
      else
        match split_slash s' with
        | seg :: rest => String c seg :: rest
        | [] => [String c EmptyString]
        end
  end.

Definition digit_value (c : ascii) : option Z :=
  let n := Z.of_nat (nat_of_ascii c) in
  if (48 <=? n) && (n <=? 57) then Some (n - 48) else None.

Fixpoint decimal (s : string) (acc : Z) : option Z :=
  match s with
  | EmptyString => Some acc
  | String c s' => d ← digit_value c; decimal s' (10 * acc + d)
  end.

(** The [int] converter of a URL rule: one or more digits, read in base
    ten. *)
Definition IntegerConverter (seg : string) : option Z :=
  match seg with
  | EmptyString => None
  | _ => decimal seg 0
  end.

Definition upper_ascii (c : ascii) : ascii :=
  let n := nat_of_ascii c in
  if ((97 <=? n) && (n <=? 122))%nat then ascii_of_nat (n - 32) else c.

(** [s.upper()] on ASCII *)
Fixpoint upper (s : string) : string :=
  match s with
  | EmptyString => EmptyString
  | String c s' => String (upper_ascii c) (upper s')
  end.

(** Matching the segments of a rule against those of a path; the result is
    the list of converted arguments. *)
Fixpoint match_rule (rule segs : list string) : option (list Z) :=
  match rule, segs with
  | [], [] => Some []
  | r :: rule', s :: segs' =>
      if String.eqb r "<int:id>" then
        i ← IntegerConverter s; args ← match_rule rule' segs'; Some (i :: args)
      else if String.eqb r s then match_rule rule' segs'
      else None
  | _, _ => None
  end.

(** A view as the URL map holds it: converted arguments, request body,
    store. *)
Definition view : Type :=
  list Z → gmap string json → store → exn + (response * store).

Definition no_args (f : store → exn + (response * store)) : view :=
  λ args _ st, match args with [] => f st | _ => inl TypeError end.

Definition with_id (f : Z → store → exn + (response * store)) : view :=
  λ args _ st, match args with [i] => f i st | _ => inl TypeError end.

Definition with_json (f : gmap string json → store → exn + (response * store)) : view :=
  λ args json_data st, match args with [] => f json_data st | _ => inl TypeError end.

Definition with_id_json
  (f : Z → gmap string json → store → exn + (response * store)) : view :=
  λ args json_data st, match args with [i] => f i json_data st | _ => inl TypeError end.

(** The rules of the [@app.route] decorators, in source order: rule string,
    [methods] list as written, view. *)
Definition url_map : list (string * list string * view) :=
  [ ("/", ["GET"], no_args home);
    ("/api-json", ["common"], no_args api_doc_json);
    ("/api", ["GET"], no_args api_doc_ui);
    ("/api/health-check/ok", ["GET"], no_args api_health_ok);
    ("/api/health-check/bad", ["GET"], no_args api_health_bad);
    ("/api/students", ["GET"], no_args get_all_students);
    ("/api/students/get/<int:id>", ["GET"], with_id get_student);
    ("/api/students/add", ["POST"], with_json add_student);
    ("/api/students/modify/<int:id>", ["PATCH"], with_id_json patch_student);
    ("/api/students/change/<int:id>", ["PUT"], with_id_json put_student);
    ("/api/students/delete/<int:id>", ["DELETE"], with_id delete_student) ]%string.

(** The methods a rule answers with its view: those of the decorator in
    upper case, and HEAD when GET is among them. *)
Definition view_methods (methods : list string) : list string :=
  let ms := upper <$> methods in
  if bool_decide ("GET"%string ∈ ms) then "HEAD"%string :: ms else ms.

(** The rules whose path matches, with the converted arguments. *)
Definition path_matches (p : string)
  : list (list string * view * list Z) :=
  omap (λ r, args ← match_rule (split_slash r.1.1) (split_slash p);
             Some (r.1.2, r.2, args)) url_map.

(** [app.dispatch_request]: the first rule that matches path and method
    runs its view; a path that matches under other methods only is
    answered by the automatic OPTIONS response or raises
    [MethodNotAllowed]; a path that matches no rule raises [NotFound]. *)
Definition dispatch_request (st : store) (r : request) : exn + (response * store) :=
  let hits := path_matches (path r) in
  match find (λ h, bool_decide (method r ∈ view_methods h.1.1)) hits with
  | Some h => h.1.2 h.2 (get_json r) st
  | None =>
      match hits with
      | [] => inl NotFound
      | _ =>
          if String.eqb (method r) "OPTIONS" then inr ((Options, 200), st)
          else inl MethodNotAllowed
      end
  end.

(** [app.handle_user_exception] and [app.handle_exception]: an HTTP
    exception becomes the response of its code, anything else a 500. *)
Definition handle_exception (e : exn) : response :=
  match e with
  | NotFound => (ErrorPage, 404)
  | MethodNotAllowed => (ErrorPage, 405)
  | _ => (ErrorPage, 500)
  end.

(** [app.full_dispatch_request]: a request that raises leaves the store as
    it was (the session of a failed request is rolled back). *)
Definition full_dispatch_request (st : store) (r : request) : response * store :=
  match dispatch_request st r with
  | inr out => out
  | inl e => (handle_exception e, st)
  end.

(** The instance [patch_student] hands to [save]: the loaded row with the
    body's non-null fields assigned. *)
Definition patched (s : Student) (json_data : gmap string json) : instance :=
  mkInstance (Some (id s))
    (if is_not_None (dict_get json_data "name")
     then Assigned (dict_get json_data "name") else Loaded (name s))
    (if is_not_None (dict_get json_data "email")
     then Assigned (dict_get json_data "email") else Loaded (email s))
    (if is_not_None (dict_get json_data "age")
     then Assigned (dict_get json_data "age") else Loaded (age s))
    (if is_not_None (dict_get json_data "cellphone")
     then Assigned (dict_get json_data "cellphone") else Loaded (cellphone s)).

(** The instance [put_student] hands to [save]: every attribute assigned
    from the body, with the default where the key is missing. *)
Definition replaced (s : Student) (json_data : gmap string json) : instance :=
  mkInstance (Some (id s))
    (Assigned (dict_get_or json_data "name" (JStr "")))
    (Assigned (dict_get_or json_data "email" (JStr "")))
    (Assigned (dict_get_or json_data "age" (JNum 0)))
    (Assigned (dict_get_or json_data "cellphone" (JStr ""))).

(** [field.deserialize]: null is refused; [Str] accepts a JSON string and
    nothing else; [Integer] accepts a JSON integer and whatever [int]
    converts. *)
Definition deserialize (f : field) (v : json) : option json :=
  match v with
  | JNull => None
  | _ =>
      match f with
      | Integer _ => match v with JNum z => Some (JNum z) | _ => JNum <$> py_int v end
      | Str _ => match v with JStr x => Some (JStr x) | _ => None end
      end
  end.

(** [schema.load(data)]: a key the schema does not declare is an error, a
    declared key that is missing is skipped, and every other value is
    deserialized by its field. *)
Definition load_with (schema : list (string * field)) (d : gmap string json)
  : option (gmap string json) :=
  if forallb (λ k, bool_decide (k ∈ schema.*1)) (map_to_list d).*1 then
    foldr (λ kf acc,
             acc ← acc;
             match d !! kf.1 with
             | None => Some acc
             | Some v => v' ← deserialize kf.2 v; Some (<[kf.1 := v']> acc)
             end)
          (Some ∅) schema
  else None.

(** [StudentSchema().load(data)] *)
Definition load (d : gmap string json) : option (gmap string json) :=
  load_with StudentSchema d.



(** An instance the session tracks for row [s0]: same key, and every
    attribute either still the column value of [s0] or assigned. *)
Definition mirrors (s0 : Student) (i : instance) : Prop :=
  pk i = Some (id s0)
  ∧ (_name i = Loaded (name s0) ∨ is_assigned (_name i) = true)
  ∧ (_email i = Loaded (email s0) ∨ is_assigned (_email i) = true)
  ∧ (_age i = Loaded (age s0) ∨ is_assigned (_age i) = true)
  ∧ (_cellphone i = Loaded (cellphone s0) ∨ is_assigned (_cellphone i) = true).

(** The table [db.create_all()] creates: no row, counter at 1. *)
Definition empty_store : store := mkStore ∅ 1.

(** The store after a sequence of requests. *)
Definition serve (st : store) (rs : list request) : store :=
  foldl (λ st r, (full_dispatch_request st r).2) st rs.

(** ** Routing lemmas *)

Lemma digit_not_slash c d : digit_value c = Some d → Ascii.eqb c "/" = false.
Proof.
  intros H. destruct (Ascii.eqb_spec c "/") as [->|]; [|done].
  by vm_compute in H.
Qed.

Lemma decimal_split_slash s acc z : decimal s acc = Some z → split_slash s = [s].
Proof.
  revert acc. induction s as [|c s IH]; intros acc H; [done|].
  simpl in H. destruct (digit_value c) as [d|] eqn:Hd; [|done].
  simpl in H. simpl. rewrite (digit_not_slash _ _ Hd).
  by rewrite (IH _ H).
Qed.

Lemma converted_split_slash seg i : IntegerConverter seg = Some i → split_slash seg = [seg].
Proof.
  destruct seg; [done|]. apply decimal_split_slash.
Qed.

Ltac split_path H :=
  cbv [String.append]; simpl; rewrite (converted_split_slash _ _ H); reflexivity.

Ltac route H Hsplit :=
  unfold dispatch_request, path_matches; simpl path;
  rewrite (Hsplit _ _ H); cbn; rewrite H; reflexivity.

Lemma split_get seg i :
  IntegerConverter seg = Some i →
  split_slash ("/api/students/get/" +:+ seg) = [""; "api"; "students"; "get"; seg]%string.
Proof. intros H. split_path H. Qed.

Lemma split_modify seg i :
  IntegerConverter seg = Some i →
  split_slash ("/api/students/modify/" +:+ seg)
  = [""; "api"; "students"; "modify"; seg]%string.
Proof. intros H. split_path H. Qed.

Lemma split_change seg i :
  IntegerConverter seg = Some i →
  split_slash ("/api/students/change/" +:+ seg)
  = [""; "api"; "students"; "change"; seg]%string.
Proof. intros H. split_path H. Qed.

Lemma split_delete seg i :
  IntegerConverter seg = Some i →
  split_slash ("/api/students/delete/" +:+ seg)
  = [""; "api"; "students"; "delete"; seg]%string.
Proof. intros H. split_path H. Qed.

Lemma route_get_student st seg i b :
  IntegerConverter seg = Some i →
  dispatch_request st (mkRequest "GET" ("/api/students/get/" +:+ seg) b)
  = get_student i st.
Proof. intros H. route H split_get. Qed.

Lemma route_patch_student st seg i b :
  IntegerConverter seg = Some i →
  dispatch_request st (mkRequest "PATCH" ("/api/students/modify/" +:+ seg) b)
  = patch_student i b st.
Proof. intros H. route H split_modify. Qed.

Lemma route_put_student st seg i b :
  IntegerConverter seg = Some i →
  dispatch_request st (mkRequest "PUT" ("/api/students/change/" +:+ seg) b)
  = put_student i b st.
Proof. intros H. route H split_change. Qed.

Lemma route_delete_student st seg i b :
  IntegerConverter seg = Some i →
  dispatch_request st (mkRequest "DELETE" ("/api/students/delete/" +:+ seg) b)
  = delete_student i st.
Proof. intros H. route H split_delete. Qed.

Lemma route_add_student st b :
  dispatch_request st (mkRequest "POST" "/api/students/add" b) = add_student b st.
Proof. reflexivity. Qed.

(** ** The lookup *)

Lemma get_by_id_found st i s :
  table st !! i = Some s → Student_get_by_id st i = inr (PyStudent (loaded s)).
Proof.
  intros H. unfold Student_get_by_id, get_or_404, query_get. by rewrite H.
Qed.

Lemma get_by_id_absent st i :
  table st !! i = None → Student_get_by_id st i = inl NotFound.
Proof.
  intros H. unfold Student_get_by_id, get_or_404, query_get. by rewrite H.
Qed.

Lemma persistent_state_loaded s : persistent_state (loaded s) = Some s.
Proof. by destruct s. Qed.

Lemma dump_obj_loaded s : dump_obj (PyStudent (loaded s)) = inr (dump s).
Proof. unfold dump_obj. by rewrite persistent_state_loaded. Qed.

(** C3: for an id that is not in the table, GET /api/students/get/{id},
    PATCH /api/students/modify/{id}, PUT /api/students/change/{id} and
    DELETE /api/students/delete/{id} are all answered 404 by the abort of
    the lookup, whatever the body is, and the store is left as it was. *)
Theorem absent_id_is_404 st seg i b :
  IntegerConverter seg = Some i →
  table st !! i = None →
  full_dispatch_request st (mkRequest "GET" ("/api/students/get/" +:+ seg) b)
    = ((ErrorPage, 404), st)
  ∧ full_dispatch_request st (mkRequest "PATCH" ("/api/students/modify/" +:+ seg) b)
    = ((ErrorPage, 404), st)
  ∧ full_dispatch_request st (mkRequest "PUT" ("/api/students/change/" +:+ seg) b)
    = ((ErrorPage, 404), st)
  ∧ full_dispatch_request st (mkRequest "DELETE" ("/api/students/delete/" +:+ seg) b)
    = ((ErrorPage, 404), st).
Proof.
  intros Hseg Hi. unfold full_dispatch_request.
  rewrite (route_get_student _ _ _ _ Hseg), (route_patch_student _ _ _ _ Hseg),
    (route_put_student _ _ _ _ Hseg), (route_delete_student _ _ _ _ Hseg).
  unfold get_student, patch_student, put_student, delete_student.
  by rewrite (get_by_id_absent _ _ Hi).
Qed.

(** C9: GET /api/health-check/bad is answered 500 with the text "Fail" in
    every store (and with every body), and leaves the store as it was. *)
Theorem health_check_bad_always_500 st b :
  full_dispatch_request st (mkRequest "GET" "/api/health-check/bad" b)
  = ((Text "Fail", 500), st).
Proof. reflexivity. Qed.

(** C8: the rule for /api-json is registered with [methods=['common']], so
    a GET on /api-json matches the path under no allowed method and is
    answered 405; the view that returns the OpenAPI document with status 200
    is reached by the method COMMON only. *)
Theorem api_json_get_is_405 st b :
  full_dispatch_request st (mkRequest "GET" "/api-json" b) = ((ErrorPage, 405), st)
  ∧ full_dispatch_request st (mkRequest "COMMON" "/api-json" b)
    = ((SwaggerJson, 200), st).
Proof. split; reflexivity. Qed.

(** ** The views on an existing row *)

Lemma patch_student_found st i s b :
  table st !! i = Some s →
  patch_student i b st =
    match Student_save st (PyStudent (patched s b)) with
    | inl _ => inr ((Text "Fail saving to db", 500), st)
    | inr (o, st') => response ← dump_obj o; inr ((Json response, 200), st')
    end.
Proof.
  intros Hi. unfold patch_student, patched. rewrite (get_by_id_found _ _ _ Hi).
  cbn -[Student_save]. by repeat destruct (is_not_None _).
Qed.

Lemma put_student_found st i s b :
  table st !! i = Some s →
  put_student i b st =
    match Student_save st (PyStudent (replaced s b)) with
    | inl _ => inr ((Text "Fail saving to db", 500), st)
    | inr (o, st') => response ← dump_obj o; inr ((Json response, 200), st')
    end.
Proof.
  intros Hi. unfold put_student. by rewrite (get_by_id_found _ _ _ Hi).
Qed.

Lemma delete_student_found st i s :
  table st !! i = Some s →
  delete_student i st
  = inr ((Text "deleted", 200), mkStore (delete (id s) (table st)) (autoinc st)).
Proof.
  intros Hi. unfold delete_student. by rewrite (get_by_id_found _ _ _ Hi).
Qed.

(** A successful [save] leaves an instance that mirrors its row. *)
Lemma save_returns_loaded st o o' st' :
  Student_save st o = inr (o', st') → ∃ s', o' = PyStudent (loaded s').
Proof.
  unfold Student_save. destruct o as [|inst]; [done|].
  destruct (flush_string 120 (_name inst)); [done|].
  destruct (flush_string 120 (_email inst)); [done|].
  destruct (flush_integer (_age inst)); [done|].
  destruct (flush_string 13 (_cellphone inst)); [done|]. cbn.
  repeat case_match; try done; intros [= <- <-]; eauto.
Qed.

(** No view dumps an instance with pending assignments: the views that dump
    after a save never raise. *)
Lemma views_never_crash_on_dump st i s b :
  table st !! i = Some s →
  (∃ out, patch_student i b st = inr out) ∧ (∃ out, put_student i b st = inr out).
Proof.
  intros Hi. rewrite (patch_student_found _ _ _ _ Hi), (put_student_found _ _ _ _ Hi).
  split.
  - destruct (Student_save st (PyStudent (patched s b))) as [|[o st']] eqn:Hs; [eauto|].
    destruct (save_returns_loaded _ _ _ _ Hs) as [s' ->].
    rewrite dump_obj_loaded. eauto.
  - destruct (Student_save st (PyStudent (replaced s b))) as [|[o st']] eqn:Hs; [eauto|].
    destruct (save_returns_loaded _ _ _ _ Hs) as [s' ->].
    rewrite dump_obj_loaded. eauto.
Qed.

(** C10: [Student.get_by_id] returns a truthy instance of an existing row
    or aborts with 404, nothing else; so the branch
    [if not student: return 'Student not found', 404] of the PATCH, PUT and
    DELETE views is never taken: none of them ever returns that pair. *)
Theorem not_student_branch_unreachable st i b :
  match Student_get_by_id st i with
  | inr o => truthy o = true ∧ ∃ s, table st !! i = Some s ∧ o = PyStudent (loaded s)
  | inl e => e = NotFound ∧ table st !! i = None
  end
  ∧ (∀ st', patch_student i b st ≠ inr ((Text "Student not found", 404), st'))
  ∧ (∀ st', put_student i b st ≠ inr ((Text "Student not found", 404), st'))
  ∧ (∀ st', delete_student i st ≠ inr ((Text "Student not found", 404), st')).
Proof.
  destruct (table st !! i) as [s|] eqn:Hi.
  - rewrite (patch_student_found _ _ _ _ Hi), (put_student_found _ _ _ _ Hi),
      (delete_student_found _ _ _ Hi), (get_by_id_found _ _ _ Hi).
    split; [eauto|].
    split_and!; intros st'; [| |done].
    + destruct (Student_save _ _) as [|[o st'']]; [done|]. by destruct (dump_obj o).
    + destruct (Student_save _ _) as [|[o st'']]; [done|]. by destruct (dump_obj o).
  - unfold patch_student, put_student, delete_student.
    by rewrite (get_by_id_absent _ _ Hi).
Qed.

(** ** The unit of work *)

Lemma wf_store_lookup st k s : wf_store st → table st !! k = Some s → row_ok st k s.
Proof. intros Hwf Hk. exact (map_Forall_lookup_1 _ _ _ _ Hwf Hk). Qed.

Lemma wf_store_fresh st : wf_store st → table st !! autoinc st = None.
Proof.
  intros Hwf. destruct (table st !! autoinc st) as [s|] eqn:Hk; [|done].
  destruct (wf_store_lookup _ _ _ Hwf Hk) as (_ & Hlt & _). lia.
Qed.

(** Every exception [save] raises ends as a 500 when no view catches it. *)
Lemma save_raises_500 st o e :
  Student_save st o = inl e → handle_exception e = (ErrorPage, 500).
Proof.
  unfold Student_save.
  destruct o as [|inst]; [by intros [= <-]|].
  assert (Hs : ∀ len a e', flush_string len a = inl e' →
                 handle_exception e' = (ErrorPage, 500)).
  { intros len a e'. unfold flush_string.
    repeat case_match; try done; by intros [= <-]. }
  assert (Hz : ∀ a e', flush_integer a = inl e' →
                 handle_exception e' = (ErrorPage, 500)).
  { intros a e'. unfold flush_integer.
    repeat case_match; try done; by intros [= <-]. }
  destruct (flush_string 120 (_name inst)) eqn:H1; [intros [= <-]; eauto|].
  destruct (flush_string 120 (_email inst)) eqn:H2; [intros [= <-]; eauto|].
  destruct (flush_integer (_age inst)) eqn:H3; [intros [= <-]; eauto|].
  destruct (flush_string 13 (_cellphone inst)) eqn:H4; [intros [= <-]; eauto|].
  cbn [mbind exn_bind].
  destruct (_ && _); [by intros [= <-]|].
  destruct (_ && _); [by intros [= <-]|].
  destruct (pk inst); [|done].
  destruct (table st !! _); [done|by intros [= <-]].
Qed.

Lemma save_persistent_inv st inst k o st' :
  pk inst = Some k →
  Student_save st (PyStudent inst) = inr (o, st') →
  ∃ n e a c,
    flush_string 120 (_name inst) = inr n
    ∧ flush_string 120 (_email inst) = inr e
    ∧ flush_integer (_age inst) = inr a
    ∧ flush_string 13 (_cellphone inst) = inr c
    ∧ o = PyStudent (loaded (mkStudent k n e a c))
    ∧ st' = mkStore (<[k := mkStudent k n e a c]> (table st)) (autoinc st).
Proof.
  intros Hpk. unfold Student_save. rewrite Hpk.
  destruct (flush_string 120 (_name inst)) as [|n]; [done|].
  destruct (flush_string 120 (_email inst)) as [|e]; [done|].
  destruct (flush_integer (_age inst)) as [|a]; [done|].
  destruct (flush_string 13 (_cellphone inst)) as [|c]; [done|]. cbn.
  repeat case_match; try done. intros [= <- <-]. by exists n, e, a, c.
Qed.

Lemma save_persistent_ok st inst k n e a c :
  pk inst = Some k →
  is_Some (table st !! k) →
  flush_string 120 (_name inst) = inr n →
  flush_string 120 (_email inst) = inr e →
  flush_integer (_age inst) = inr a →
  flush_string 13 (_cellphone inst) = inr c →
  ¬ email_taken (table st) (Some k) e →
  ¬ cellphone_taken (table st) (Some k) c →
  Student_save st (PyStudent inst)
  = inr (PyStudent (loaded (mkStudent k n e a c)),
         mkStore (<[k := mkStudent k n e a c]> (table st)) (autoinc st)).
Proof.
  intros Hpk [s0 Hk] Hn He Ha Hc Hne Hnc. unfold Student_save.
  rewrite Hpk, Hn, He, Ha, Hc, Hk. cbn.
  rewrite (bool_decide_eq_false_2 _ Hne), (bool_decide_eq_false_2 _ Hnc).
  by rewrite !andb_false_r.
Qed.

Lemma save_transient_ok st n e a c vn ve va vc :
  flush_string 120 (Assigned vn) = inr n →
  flush_string 120 (Assigned ve) = inr e →
  flush_integer (Assigned va) = inr a →
  flush_string 13 (Assigned vc) = inr c →
  ¬ email_taken (table st) None e →
  ¬ cellphone_taken (table st) None c →
  Student_save st (Student_init vn ve va vc)
  = inr (PyStudent (loaded (mkStudent (autoinc st) n e a c)),
         mkStore (<[autoinc st := mkStudent (autoinc st) n e a c]> (table st))
                 (autoinc st + 1)).
Proof.
  intros Hn He Ha Hc Hne Hnc. unfold Student_save, Student_init; cbn [pk _name _email _age _cellphone].
  rewrite Hn, He, Ha, Hc. cbn.
  rewrite (bool_decide_eq_false_2 _ Hne), (bool_decide_eq_false_2 _ Hnc).
  done.
Qed.

Lemma flush_string_str len s :
  (String.length s ≤ len)%nat → flush_string len (Assigned (JStr s)) = inr s.
Proof. intros H. unfold flush_string. by rewrite (varchar_str _ _ H). Qed.

Lemma flush_integer_num z :
  int_column z → flush_integer (Assigned (JNum z)) = inr z.
Proof. intros H. unfold flush_integer. by rewrite (integer_num _ H). Qed.

(** C6: for an id in the table, DELETE /api/students/delete/{id} returns
    the text "deleted" with status 200 and removes that row and no other;
    a GET /api/students/get/{id} that follows is answered 404. *)
Theorem delete_then_get_is_404 st seg i s b b' :
  wf_store st →
  IntegerConverter seg = Some i →
  table st !! i = Some s →
  let out :=
    full_dispatch_request st
      (mkRequest "DELETE" ("/api/students/delete/" +:+ seg) b) in
  out.1 = (Text "deleted", 200)
  ∧ out.2 = mkStore (delete i (table st)) (autoinc st)
  ∧ table out.2 !! i = None
  ∧ (∀ j, j ≠ i → table out.2 !! j = table st !! j)
  ∧ full_dispatch_request out.2
      (mkRequest "GET" ("/api/students/get/" +:+ seg) b')
    = ((ErrorPage, 404), out.2).
Proof.
  intros Hwf Hseg Hi out.
  destruct (wf_store_lookup _ _ _ Hwf Hi) as (Hid & _).
  assert (Hout : out = ((Text "deleted", 200), mkStore (delete i (table st)) (autoinc st))).
  { unfold out, full_dispatch_request.
    by rewrite (route_delete_student _ _ _ _ Hseg), (delete_student_found _ _ _ Hi), Hid. }
  rewrite Hout. cbn [fst snd table].
  split_and!; [done|done|apply lookup_delete_eq| |].
  - intros j Hj. by apply lookup_delete_ne.
  - unfold full_dispatch_request. rewrite (route_get_student _ _ _ _ Hseg).
    unfold get_student. rewrite get_by_id_absent; [done|]. apply lookup_delete_eq.
Qed.

Lemma add_student_raises st b e :
  Student_save st
    (Student_init (dict_get b "name") (dict_get b "email")
                  (dict_get b "age") (dict_get b "cellphone")) = inl e →
  full_dispatch_request st (mkRequest "POST" "/api/students/add" b)
  = ((ErrorPage, 500), st).
Proof.
  intros Hs. unfold full_dispatch_request. rewrite route_add_student.
  unfold add_student. rewrite Hs. cbn. by rewrite (save_raises_500 _ _ _ Hs).
Qed.

Lemma save_duplicate_email st vn e va vc k s :
  wf_store st → table st !! k = Some s → e = email s →
  ∃ x, Student_save st (Student_init vn (JStr e) va vc) = inl x.
Proof.
  intros Hwf Hk ->.
  destruct (wf_store_lookup _ _ _ Hwf Hk) as (_ & _ & _ & Hlen & _).
  unfold Student_save, Student_init; cbn [pk _name _email _age _cellphone].
  destruct (flush_string 120 (Assigned vn)); [eauto|].
  rewrite (flush_string_str _ _ Hlen).
  destruct (flush_integer (Assigned va)); [eauto|].
  destruct (flush_string 13 (Assigned vc)); [eauto|].
  cbn [mbind exn_bind is_assigned andb].
  rewrite bool_decide_eq_true_2; [eauto|].
  exists k, s. split; [done|]. by split.
Qed.

Lemma save_duplicate_cellphone st vn ve va c k s :
  wf_store st → table st !! k = Some s → c = cellphone s →
  ∃ x, Student_save st (Student_init vn ve va (JStr c)) = inl x.
Proof.
  intros Hwf Hk ->.
  destruct (wf_store_lookup _ _ _ Hwf Hk) as (_ & _ & _ & _ & _ & Hlen & _).
  unfold Student_save, Student_init; cbn [pk _name _email _age _cellphone].
  destruct (flush_string 120 (Assigned vn)); [eauto|].
  destruct (flush_string 120 (Assigned ve)); [eauto|].
  destruct (flush_integer (Assigned va)); [eauto|].
  rewrite (flush_string_str _ _ Hlen).
  cbn [mbind exn_bind is_assigned andb].
  destruct (bool_decide (email_taken _ _ _)); [eauto|].
  rewrite bool_decide_eq_true_2; [eauto|].
  exists k, s. split; [done|]. by split.
Qed.

(** C5: in a well-formed store, a POST /api/students/add whose body carries
    the email or the cellphone of a row of the table is answered 500 (the
    write raises and no view catches it), whatever else the body holds,
    and the store after the request is the store before it. *)
Theorem add_student_duplicate_is_500 st b k s :
  wf_store st →
  table st !! k = Some s →
  dict_get b "email" = JStr (email s) ∨ dict_get b "cellphone" = JStr (cellphone s) →
  full_dispatch_request st (mkRequest "POST" "/api/students/add" b)
  = ((ErrorPage, 500), st).
Proof.
  intros Hwf Hk [He|Hc].
  - destruct (save_duplicate_email st (dict_get b "name") (email s)
                (dict_get b "age") (dict_get b "cellphone") k s Hwf Hk eq_refl)
      as [x Hx].
    apply (add_student_raises _ _ x). by rewrite He.
  - destruct (save_duplicate_cellphone st (dict_get b "name") (dict_get b "email")
                (dict_get b "age") (cellphone s) k s Hwf Hk eq_refl)
      as [x Hx].
    apply (add_student_raises _ _ x). by rewrite Hc.
Qed.

(** C4, amended: in a well-formed store, a POST /api/students/add whose
    body holds all four fields with values that fit their columns (name and
    email strings of at most 120 characters, cellphone a string of at most
    13, age a 32-bit integer) and whose email and cellphone are held by no
    row returns 201 with the created record; the id of that record is the
    next value of the counter, under which the table held no row before,
    and [get_by_id] on it, as the GET route, yields the record with the
    four fields of the body; the other rows are untouched. *)
Theorem add_student_creates st b n e a c seg b' :
  wf_store st →
  dict_get b "name" = JStr n → dict_get b "email" = JStr e →
  dict_get b "age" = JNum a → dict_get b "cellphone" = JStr c →
  (String.length n ≤ 120)%nat → (String.length e ≤ 120)%nat →
  int_column a → (String.length c ≤ 13)%nat →
  ¬ email_taken (table st) None e →
  ¬ cellphone_taken (table st) None c →
  IntegerConverter seg = Some (autoinc st) →
  let out := full_dispatch_request st (mkRequest "POST" "/api/students/add" b) in
  let created := mkStudent (autoinc st) n e a c in
  out.1 = (Json (dump created), 201)
  ∧ table st !! id created = None
  ∧ Student_get_by_id out.2 (id created) = inr (PyStudent (loaded created))
  ∧ full_dispatch_request out.2 (mkRequest "GET" ("/api/students/get/" +:+ seg) b')
    = ((Json (dump created), 200), out.2)
  ∧ (∀ j, j ≠ id created → table out.2 !! j = table st !! j).
Proof.
  intros Hwf Hn He Ha Hc Ln Le La Lc Hne Hnc Hseg out created.
  assert (Hout : out = ((Json (dump created), 201),
                        mkStore (<[autoinc st := created]> (table st)) (autoinc st + 1))).
  { unfold out, full_dispatch_request. rewrite route_add_student.
    unfold add_student. rewrite Hn, He, Ha, Hc.
    rewrite (save_transient_ok st n e a c _ _ _ _
               (flush_string_str _ _ Ln) (flush_string_str _ _ Le)
               (flush_integer_num _ La) (flush_string_str _ _ Lc) Hne Hnc).
    cbn [mbind exn_bind]. by rewrite dump_obj_loaded. }
  rewrite Hout. cbn [fst snd table id created].
  assert (Hget : Student_get_by_id
                   (mkStore (<[autoinc st := created]> (table st)) (autoinc st + 1))
                   (autoinc st) = inr (PyStudent (loaded created))).
  { apply get_by_id_found. cbn. apply lookup_insert_eq. }
  split_and!; [done|by apply wf_store_fresh|done| |].
  - unfold full_dispatch_request. rewrite (route_get_student _ _ _ _ Hseg).
    unfold get_student. rewrite Hget. cbn [mbind exn_bind].
    by rewrite dump_obj_loaded.
  - intros j Hj. by apply lookup_insert_ne.
Qed.

(** ** Full replace and partial update *)





(** The outcome of a PATCH or PUT on an existing row, from that of [save]. *)
Lemma update_outcome st inst k (v : exn + (response * store)) :
  pk inst = Some k →
  v = match Student_save st (PyStudent inst) with
      | inl _ => inr ((Text "Fail saving to db", 500), st)
      | inr (o, st') => response ← dump_obj o; inr ((Json response, 200), st')
      end →
  v = inr ((Text "Fail saving to db", 500), st)
  ∨ ∃ n e a c,
      flush_string 120 (_name inst) = inr n
      ∧ flush_string 120 (_email inst) = inr e
      ∧ flush_integer (_age inst) = inr a
      ∧ flush_string 13 (_cellphone inst) = inr c
      ∧ v = inr ((Json (dump (mkStudent k n e a c)), 200),
                 mkStore (<[k := mkStudent k n e a c]> (table st)) (autoinc st)).
Proof.
  intros Hpk ->.
  destruct (Student_save st (PyStudent inst)) as [x|[o st']] eqn:Hs; [by left|].
  destruct (save_persistent_inv _ _ _ _ _ Hpk Hs) as (n & e & a & c & Hn & He & Ha & Hc & -> & ->).
  right. exists n, e, a, c. by rewrite dump_obj_loaded.
Qed.


Lemma full_dispatch_inr st r out :
  dispatch_request st r = inr out → full_dispatch_request st r = out.
Proof. intros H. unfold full_dispatch_request. by rewrite H. Qed.



(** ** The schema *)

(** C7: the JSON object [StudentSchema] dumps for a Student record holds the
    four writable fields under their names, as JSON strings and a JSON
    integer; loading that object through the schema gives the same object
    back, and the three ways the views read a body (create, full replace,
    partial update) assign exactly the original four values. *)
Theorem schema_round_trip (s s0 : Student) :
  load (dump s) = Some (dump s)
  ∧ dump s !! "name"%string = Some (JStr (name s))
  ∧ dump s !! "email"%string = Some (JStr (email s))
  ∧ dump s !! "age"%string = Some (JNum (age s))
  ∧ dump s !! "cellphone"%string = Some (JStr (cellphone s))
  ∧ Student_init (dict_get (dump s) "name") (dict_get (dump s) "email")
                 (dict_get (dump s) "age") (dict_get (dump s) "cellphone")
    = PyStudent (mkInstance None (Assigned (JStr (name s))) (Assigned (JStr (email s)))
                            (Assigned (JNum (age s))) (Assigned (JStr (cellphone s))))
  ∧ replaced s0 (dump s)
    = mkInstance (Some (id s0)) (Assigned (JStr (name s))) (Assigned (JStr (email s)))
                 (Assigned (JNum (age s))) (Assigned (JStr (cellphone s)))
  ∧ patched s0 (dump s) = replaced s0 (dump s).
Proof. split_and!; reflexivity. Qed.

(** ** The table constraints are invariant *)

Lemma empty_store_wf : wf_store empty_store.
Proof. apply map_Forall_empty. Qed.

Lemma wf_store_write st k s' next :
  wf_store st →
  id s' = k → k < next → autoinc st ≤ next →
  (String.length (name s') ≤ 120)%nat →
  (String.length (email s') ≤ 120)%nat →
  int_column (age s') →
  (String.length (cellphone s') ≤ 13)%nat →
  ¬ email_taken (table st) (Some k) (email s') →
  ¬ cellphone_taken (table st) (Some k) (cellphone s') →
  wf_store (mkStore (<[k := s']> (table st)) next).
Proof.
  intros Hwf Hid Hk Hnext Ln Le La Lc Hne Hnc j r Hj. cbn in Hj.
  unfold row_ok; cbn [table autoinc].
  destruct (decide (k = j)) as [->|Hkj].
  - rewrite lookup_insert_eq in Hj. injection Hj as <-.
    split_and!; try done.
    + intros (k' & r' & Hk' & Hne' & He'). apply Hne.
      assert (k' ≠ j) by congruence.
      rewrite lookup_insert_ne in Hk' by done. by exists k', r'.
    + intros (k' & r' & Hk' & Hne' & He'). apply Hnc.
      assert (k' ≠ j) by congruence.
      rewrite lookup_insert_ne in Hk' by done. by exists k', r'.
  - rewrite lookup_insert_ne in Hj by done.
    destruct (wf_store_lookup _ _ _ Hwf Hj) as (Hid' & Hlt & Ln' & Le' & La' & Lc' & Hne' & Hnc').
    split_and!; try done; [lia| |].
    + intros (k' & r' & Hk' & Hd & He'). destruct (decide (k = k')) as [<-|Hkk].
      * rewrite lookup_insert_eq in Hk'. injection Hk' as <-.
        apply Hne. exists j, r. split; [done|]. split; [congruence|done].
      * rewrite lookup_insert_ne in Hk' by done. apply Hne'. by exists k', r'.
    + intros (k' & r' & Hk' & Hd & He'). destruct (decide (k = k')) as [<-|Hkk].
      * rewrite lookup_insert_eq in Hk'. injection Hk' as <-.
        apply Hnc. exists j, r. split; [done|]. split; [congruence|done].
      * rewrite lookup_insert_ne in Hk' by done. apply Hnc'. by exists k', r'.
Qed.

Lemma wf_store_delete st k :
  wf_store st → wf_store (mkStore (delete k (table st)) (autoinc st)).
Proof.
  intros Hwf j r Hj. cbn in Hj. apply lookup_delete_Some in Hj as [Hkj Hj].
  destruct (wf_store_lookup _ _ _ Hwf Hj) as (Hid' & Hlt & Ln' & Le' & La' & Lc' & Hne' & Hnc').
  unfold row_ok; cbn [table autoinc]. split_and!; try done.
  - intros (k' & r' & Hk' & Hd & He'). apply lookup_delete_Some in Hk' as [_ Hk'].
    apply Hne'. by exists k', r'.
  - intros (k' & r' & Hk' & Hd & He'). apply lookup_delete_Some in Hk' as [_ Hk'].
    apply Hnc'. by exists k', r'.
Qed.

Lemma taken_by_another_email t k e :
  email_taken t (Some k) e → email_taken t None e.
Proof. intros (k' & r' & Hk' & _ & He'). by exists k', r'. Qed.

Lemma taken_by_another_cellphone t k c :
  cellphone_taken t (Some k) c → cellphone_taken t None c.
Proof. intros (k' & r' & Hk' & _ & He'). by exists k', r'. Qed.

Lemma flush_assigned_string_fits len v s :
  flush_string len (Assigned v) = inr s → (String.length s ≤ len)%nat.
Proof.
  unfold flush_string.
  destruct v; try done; (destruct (to_varchar len _) eqn:Hv; [|done]);
    intros [= <-]; by apply varchar_fits in Hv.
Qed.

Lemma flush_assigned_integer_fits v z :
  flush_integer (Assigned v) = inr z → int_column z.
Proof.
  unfold flush_integer.
  destruct v; try done; (destruct (to_integer _) eqn:Hv; [|done]);
    intros [= <-]; by apply integer_fits in Hv.
Qed.

Lemma flush_string_fits len a s old :
  (a = Loaded old ∨ is_assigned a = true) →
  (String.length old ≤ len)%nat →
  flush_string len a = inr s → (String.length s ≤ len)%nat.
Proof.
  intros Ha Hold. destruct a as [x|v]; [|apply flush_assigned_string_fits].
  destruct Ha as [[= ->]|]; [|done]. by intros [= <-].
Qed.

Lemma flush_integer_fits a z old :
  (a = Loaded old ∨ is_assigned a = true) →
  int_column old →
  flush_integer a = inr z → int_column z.
Proof.
  intros Ha Hold. destruct a as [x|v]; [|apply flush_assigned_integer_fits].
  destruct Ha as [[= ->]|]; [|done]. by intros [= <-].
Qed.

Lemma not_taken_email st k s0 a e :
  wf_store st → table st !! k = Some s0 →
  (a = Loaded (email s0) ∨ is_assigned a = true) →
  flush_string 120 a = inr e →
  is_assigned a && bool_decide (email_taken (table st) (Some k) e) = false →
  ¬ email_taken (table st) (Some k) e.
Proof.
  intros Hwf Hk Ha He Hchk.
  destruct (wf_store_lookup _ _ _ Hwf Hk) as (_ & _ & _ & _ & _ & _ & Hne & _).
  destruct a as [x|v].
  - destruct Ha as [[= ->]|]; [|done]. cbn in He. by injection He as <-.
  - cbn [is_assigned andb] in Hchk. by apply bool_decide_eq_false_1 in Hchk.
Qed.

Lemma not_taken_cellphone st k s0 a c :
  wf_store st → table st !! k = Some s0 →
  (a = Loaded (cellphone s0) ∨ is_assigned a = true) →
  flush_string 13 a = inr c →
  is_assigned a && bool_decide (cellphone_taken (table st) (Some k) c) = false →
  ¬ cellphone_taken (table st) (Some k) c.
Proof.
  intros Hwf Hk Ha Hc Hchk.
  destruct (wf_store_lookup _ _ _ Hwf Hk) as (_ & _ & _ & _ & _ & _ & _ & Hnc).
  destruct a as [x|v].
  - destruct Ha as [[= ->]|]; [|done]. cbn in Hc. by injection Hc as <-.
  - cbn [is_assigned andb] in Hchk. by apply bool_decide_eq_false_1 in Hchk.
Qed.

(** A save of an instance the session tracks for a row of the table leaves
    a well-formed store. *)
Lemma save_persistent_wf st k s0 inst o st' :
  wf_store st → table st !! k = Some s0 → mirrors s0 inst →
  Student_save st (PyStudent inst) = inr (o, st') → wf_store st'.
Proof.
  intros Hwf Hk (Hpk & Mn & Me & Ma & Mc).
  destruct (wf_store_lookup _ _ _ Hwf Hk) as (Hid & Hlt & Ln & Le & La & Lc & _).
  rewrite Hid in Hpk. unfold Student_save. rewrite Hpk, Hk.
  destruct (flush_string 120 (_name inst)) as [|n] eqn:Hn; [done|].
  destruct (flush_string 120 (_email inst)) as [|e] eqn:He; [done|].
  destruct (flush_integer (_age inst)) as [|a] eqn:Ha; [done|].
  destruct (flush_string 13 (_cellphone inst)) as [|c] eqn:Hc; [done|].
  cbn [mbind exn_bind].
  destruct (is_assigned (_email inst) && _) eqn:Hce; [done|].
  destruct (is_assigned (_cellphone inst) && _) eqn:Hcc; [done|].
  intros [= <- <-].
  apply wf_store_write; cbn [id name email age cellphone]; try done; try lia.
  - exact (flush_string_fits _ _ _ _ Mn Ln Hn).
  - exact (flush_string_fits _ _ _ _ Me Le He).
  - exact (flush_integer_fits _ _ _ Ma La Ha).
  - exact (flush_string_fits _ _ _ _ Mc Lc Hc).
  - exact (not_taken_email _ _ _ _ _ Hwf Hk Me He Hce).
  - exact (not_taken_cellphone _ _ _ _ _ Hwf Hk Mc Hc Hcc).
Qed.

(** A save of a new instance leaves a well-formed store. *)
Lemma save_transient_wf st vn ve va vc o st' :
  wf_store st →
  Student_save st (Student_init vn ve va vc) = inr (o, st') → wf_store st'.
Proof.
  intros Hwf. unfold Student_save, Student_init; cbn [pk _name _email _age _cellphone].
  destruct (flush_string 120 (Assigned vn)) as [|n] eqn:Hn; [done|].
  destruct (flush_string 120 (Assigned ve)) as [|e] eqn:He; [done|].
  destruct (flush_integer (Assigned va)) as [|a] eqn:Ha; [done|].
  destruct (flush_string 13 (Assigned vc)) as [|c] eqn:Hc; [done|].
  cbn [mbind exn_bind is_assigned andb].
  destruct (bool_decide (email_taken _ _ _)) eqn:Hce; [done|].
  destruct (bool_decide (cellphone_taken _ _ _)) eqn:Hcc; [done|].
  intros [= <- <-].
  apply bool_decide_eq_false_1 in Hce, Hcc.
  apply wf_store_write; cbn [id name email age cellphone]; try done; try lia.
  - exact (flush_assigned_string_fits _ _ _ Hn).
  - exact (flush_assigned_string_fits _ _ _ He).
  - exact (flush_assigned_integer_fits _ _ Ha).
  - exact (flush_assigned_string_fits _ _ _ Hc).
  - intros H. apply Hce. by eapply taken_by_another_email.
  - intros H. apply Hcc. by eapply taken_by_another_cellphone.
Qed.

Lemma mirrors_patched s b : mirrors s (patched s b).
Proof.
  unfold mirrors, patched; cbn. split_and!; [done|..];
    destruct (is_not_None _); auto.
Qed.

Lemma mirrors_replaced s b : mirrors s (replaced s b).
Proof. unfold mirrors, replaced; cbn. split_and!; auto. Qed.

(** What it means for a view to keep the store well-formed. *)
Lemma views_keep_wf st :
  wf_store st →
  (∀ b out, add_student b st = inr out → wf_store out.2)
  ∧ (∀ i b out, patch_student i b st = inr out → wf_store out.2)
  ∧ (∀ i b out, put_student i b st = inr out → wf_store out.2)
  ∧ (∀ i out, delete_student i st = inr out → wf_store out.2)
  ∧ (∀ i out, get_student i st = inr out → wf_store out.2).
Proof.
  intros Hwf. split_and!.
  - intros b out. unfold add_student.
    destruct (Student_save st _) as [|[o st']] eqn:Hs; [done|].
    cbn [mbind exn_bind]. destruct (dump_obj o); [done|]. intros [= <-].
    by apply (save_transient_wf _ _ _ _ _ _ _ Hwf Hs).
  - intros i b out. destruct (table st !! i) as [s|] eqn:Hi.
    + rewrite (patch_student_found _ _ _ _ Hi).
      destruct (Student_save st _) as [|[o st']] eqn:Hs; [by intros [= <-]|].
      destruct (dump_obj o); [done|]. intros [= <-].
      exact (save_persistent_wf _ _ _ _ _ _ Hwf Hi (mirrors_patched s b) Hs).
    + unfold patch_student. by rewrite (get_by_id_absent _ _ Hi).
  - intros i b out. destruct (table st !! i) as [s|] eqn:Hi.
    + rewrite (put_student_found _ _ _ _ Hi).
      destruct (Student_save st _) as [|[o st']] eqn:Hs; [by intros [= <-]|].
      destruct (dump_obj o); [done|]. intros [= <-].
      exact (save_persistent_wf _ _ _ _ _ _ Hwf Hi (mirrors_replaced s b) Hs).
    + unfold put_student. by rewrite (get_by_id_absent _ _ Hi).
  - intros i out. destruct (table st !! i) as [s|] eqn:Hi.
    + rewrite (delete_student_found _ _ _ Hi). intros [= <-].
      by apply wf_store_delete.
    + unfold delete_student. by rewrite (get_by_id_absent _ _ Hi).
  - intros i out. unfold get_student.
    destruct (Student_get_by_id st i); [done|]. cbn [mbind exn_bind].
    destruct (dump_obj _); [done|]. by intros [= <-].
Qed.

(** Every request leaves a well-formed store well-formed: the stores the
    theorems above assume are the ones the application can be in. *)
Lemma requests_keep_wf st r :
  wf_store st → wf_store (full_dispatch_request st r).2.
Proof.
  intros Hwf. destruct (views_keep_wf st Hwf) as (Hadd & Hpatch & Hput & Hdel & Hget).
  unfold full_dispatch_request.
  destruct (dispatch_request st r) as [e|out] eqn:Hd; [done|].
  revert Hd. unfold dispatch_request.
  assert (Hall : Forall (λ h : list string * view * list Z,
                   ∀ b out, h.1.2 h.2 b st = inr out → wf_store out.2)
                 (path_matches (path r))).
  { unfold path_matches, url_map. rewrite Forall_forall.
    intros h Hh. apply list_elem_of_omap in Hh as (rule & Hrule & Hm).
    destruct (match_rule _ _) as [args|]; [|done]. injection Hm as <-.
    cbn [fst snd].
    repeat (apply elem_of_cons in Hrule as [->|Hrule]); [..|by apply elem_of_nil in Hrule];
      cbn [fst snd]; unfold no_args, with_id, with_json, with_id_json;
      intros b out'; destruct args as [|i [|]]; try done; eauto;
      by intros [= <-]. }
  destruct (find _ _) as [h|] eqn:Hf.
  - apply find_some in Hf as [Hin _]. apply list_elem_of_In in Hin.
    rewrite Forall_forall in Hall. apply (Hall h Hin).
  - destruct (path_matches _); [done|]. destruct (String.eqb _ _); [|done].
    by intros [= <-].
Qed.

(** X1: the constraints the column declarations put on the table (primary
    key, issued ids below the counter, column lengths and range, unique
    email and cellphone) hold after every sequence of requests, whatever
    the requests are, when they hold before it. *)
Lemma serve_keeps_wf rs st : wf_store st → wf_store (serve st rs).
Proof.
  revert st. induction rs as [|r rs IH]; intros st Hwf; [done|].
  cbn. apply IH. by apply requests_keep_wf.
Qed.

(** ** Reading *)

(** X2: for an id in the table, GET /api/students/get/{id} returns the
    dump of that row with status 200, whatever the body, and leaves the
    store as it was. *)
Theorem get_student_found st seg i s b :
  IntegerConverter seg = Some i →
  table st !! i = Some s →
  full_dispatch_request st (mkRequest "GET" ("/api/students/get/" +:+ seg) b)
  = ((Json (dump s), 200), st).
Proof.
  intros Hseg Hi. apply full_dispatch_inr.
  rewrite (route_get_student _ _ _ _ Hseg). unfold get_student.
  rewrite (get_by_id_found _ _ _ Hi). cbn [mbind exn_bind].
  by rewrite dump_obj_loaded.
Qed.

(** X3: GET /api/students returns, with status 200, a list that holds the
    dump of every row of the table and nothing else, one entry per row (the
    empty list for the empty table), and leaves the store as it was. *)
Theorem get_all_students_lists_table st b :
  ∃ l,
    full_dispatch_request st (mkRequest "GET" "/api/students" b)
    = ((JsonList l, 200), st)
    ∧ length l = size (table st)
    ∧ (∀ d, d ∈ l ↔ ∃ k s, table st !! k = Some s ∧ d = dump s)
    ∧ (table st = ∅ → l = []).
Proof.
  exists (dump <$> Student_get_all st). split; [reflexivity|].
  unfold Student_get_all. split_and!.
  - by rewrite !length_fmap, length_map_to_list.
  - intros d. rewrite list_elem_of_fmap. split.
    + intros (s & -> & Hs). apply list_elem_of_fmap in Hs as ([k s'] & -> & Hks).
      apply elem_of_map_to_list in Hks. by exists k, s'.
    + intros (k & s & Hk & ->). exists s. split; [done|].
      apply list_elem_of_fmap. exists (k, s). split; [done|].
      by apply elem_of_map_to_list.
  - intros ->. by rewrite map_to_list_empty.
Qed.











(** ** What the views read, and what they answer *)

(** X5: the POST, PATCH and PUT views read the keys name, email, age and
    cellphone of the body and no other: two bodies that agree on these four
    keys get the same answer and leave the same store (an "id" key, or any
    other, is ignored). *)
Theorem views_read_four_keys st seg i b b' :
  IntegerConverter seg = Some i →
  (∀ k, k ∈ ["name"; "email"; "age"; "cellphone"]%string → b !! k = b' !! k) →
  full_dispatch_request st (mkRequest "POST" "/api/students/add" b)
  = full_dispatch_request st (mkRequest "POST" "/api/students/add" b')
  ∧ full_dispatch_request st (mkRequest "PATCH" ("/api/students/modify/" +:+ seg) b)
    = full_dispatch_request st (mkRequest "PATCH" ("/api/students/modify/" +:+ seg) b')
  ∧ full_dispatch_request st (mkRequest "PUT" ("/api/students/change/" +:+ seg) b)
    = full_dispatch_request st (mkRequest "PUT" ("/api/students/change/" +:+ seg) b').
Proof.
  intros Hseg Hb.
  assert (Hn : b !! "name"%string = b' !! "name"%string)
    by (apply Hb, list_elem_of_In; cbn; tauto).
  assert (He : b !! "email"%string = b' !! "email"%string)
    by (apply Hb, list_elem_of_In; cbn; tauto).
  assert (Ha : b !! "age"%string = b' !! "age"%string)
    by (apply Hb, list_elem_of_In; cbn; tauto).
  assert (Hc : b !! "cellphone"%string = b' !! "cellphone"%string)
    by (apply Hb, list_elem_of_In; cbn; tauto).
  unfold full_dispatch_request.
  rewrite !route_add_student, !(route_patch_student _ _ _ _ Hseg),
    !(route_put_student _ _ _ _ Hseg).
  unfold add_student, patch_student, put_student, dict_get, dict_get_or.
  by rewrite Hn, He, Ha, Hc.
Qed.










(** ** Writes *)

Lemma save_persistent_full st inst k o st' :
  pk inst = Some k →
  Student_save st (PyStudent inst) = inr (o, st') →
  ∃ n e a c,
    flush_string 120 (_name inst) = inr n
    ∧ flush_string 120 (_email inst) = inr e
    ∧ flush_integer (_age inst) = inr a
    ∧ flush_string 13 (_cellphone inst) = inr c
    ∧ is_assigned (_email inst) && bool_decide (email_taken (table st) (Some k) e) = false
    ∧ is_assigned (_cellphone inst)
        && bool_decide (cellphone_taken (table st) (Some k) c) = false
    ∧ is_Some (table st !! k)
    ∧ o = PyStudent (loaded (mkStudent k n e a c))
    ∧ st' = mkStore (<[k := mkStudent k n e a c]> (table st)) (autoinc st).
Proof.
  intros Hpk. unfold Student_save. rewrite Hpk.
  destruct (flush_string 120 (_name inst)) as [|n]; [done|].
  destruct (flush_string 120 (_email inst)) as [|e]; [done|].
  destruct (flush_integer (_age inst)) as [|a]; [done|].
  destruct (flush_string 13 (_cellphone inst)) as [|c]; [done|].
  cbn [mbind exn_bind].
  destruct (is_assigned (_email inst) && _) eqn:Hce; [done|].
  destruct (is_assigned (_cellphone inst) && _) eqn:Hcc; [done|].
  destruct (table st !! k) eqn:Hk; [|done].
  intros [= <- <-]. exists n, e, a, c. by split_and!.
Qed.

Lemma email_taken_insert_self t k s' e :
  email_taken (<[k := s']> t) (Some k) e ↔ email_taken t (Some k) e.
Proof.
  split; intros (k' & r' & Hk' & Hne & He);
    (assert (k ≠ k') by congruence); exists k', r'.
  - by rewrite lookup_insert_ne in Hk'.
  - by rewrite lookup_insert_ne.
Qed.

Lemma cellphone_taken_insert_self t k s' c :
  cellphone_taken (<[k := s']> t) (Some k) c ↔ cellphone_taken t (Some k) c.
Proof.
  split; intros (k' & r' & Hk' & Hne & He);
    (assert (k ≠ k') by congruence); exists k', r'.
  - by rewrite lookup_insert_ne in Hk'.
  - by rewrite lookup_insert_ne.
Qed.

(** Saving the same pending instance again changes nothing more. *)
Lemma save_again st inst k o st' :
  pk inst = Some k →
  Student_save st (PyStudent inst) = inr (o, st') →
  Student_save st' (PyStudent inst) = inr (o, st').
Proof.
  intros Hpk Hs.
  destruct (save_persistent_full _ _ _ _ _ Hpk Hs)
    as (n & e & a & c & Hn & He & Ha & Hc & Hce & Hcc & Hk & -> & ->).
  unfold Student_save. rewrite Hpk, Hn, He, Ha, Hc. cbn [mbind exn_bind table autoinc].
  rewrite (bool_decide_ext _ _ (email_taken_insert_self _ _ _ _)), Hce.
  rewrite (bool_decide_ext _ _ (cellphone_taken_insert_self _ _ _ _)), Hcc.
  rewrite lookup_insert_eq. by rewrite insert_insert_eq.
Qed.

Lemma patched_again s b k n e a c :
  id s = k →
  flush_string 120 (_name (patched s b)) = inr n →
  flush_string 120 (_email (patched s b)) = inr e →
  flush_integer (_age (patched s b)) = inr a →
  flush_string 13 (_cellphone (patched s b)) = inr c →
  patched (mkStudent k n e a c) b = patched s b.
Proof.
  intros <-. unfold patched; cbn [_name _email _age _cellphone id name email age cellphone].
  destruct (is_not_None (dict_get b "name")), (is_not_None (dict_get b "email")),
    (is_not_None (dict_get b "age")), (is_not_None (dict_get b "cellphone"));
    cbn; intros; by simplify_eq.
Qed.

(** X8: PUT is idempotent. In a well-formed store, repeating a PUT
    /api/students/change/{id} with the same body on the store the first one
    left gives the same answer and the same store as the first one (the
    same 200 and record, the same 500, or the same 404). *)
Theorem put_student_idempotent st seg i b :
  wf_store st →
  IntegerConverter seg = Some i →
  let r := mkRequest "PUT" ("/api/students/change/" +:+ seg) b in
  full_dispatch_request (full_dispatch_request st r).2 r = full_dispatch_request st r.
Proof.
  intros Hwf Hseg r. unfold r, full_dispatch_request.
  rewrite !(route_put_student _ _ _ _ Hseg).
  destruct (table st !! i) as [s|] eqn:Hi.
  - destruct (wf_store_lookup _ _ _ Hwf Hi) as (Hid & _).
    assert (Hpk : pk (replaced s b) = Some i) by (by rewrite <- Hid).
    rewrite (put_student_found _ _ _ _ Hi).
    destruct (Student_save st (PyStudent (replaced s b))) as [x|[o st']] eqn:Hs.
    + cbn [snd]. by rewrite (put_student_found _ _ _ _ Hi), Hs.
    + destruct (save_persistent_full _ _ _ _ _ Hpk Hs)
        as (n & e & a & c & _ & _ & _ & _ & _ & _ & _ & -> & ->).
      rewrite dump_obj_loaded. cbn [mbind exn_bind snd].
      rewrite (put_student_found _ i (mkStudent i n e a c) b) by apply lookup_insert_eq.
      replace (replaced (mkStudent i n e a c) b) with (replaced s b)
        by (unfold replaced; cbn; by rewrite Hid).
      by rewrite (save_again _ _ _ _ _ Hpk Hs), dump_obj_loaded.
  - unfold put_student. rewrite (get_by_id_absent _ _ Hi). cbn.
    by rewrite (get_by_id_absent _ _ Hi).
Qed.

(** X9: PATCH is idempotent. In a well-formed store, repeating a PATCH
    /api/students/modify/{id} with the same body on the store the first one
    left gives the same answer and the same store as the first one. *)
Theorem patch_student_idempotent st seg i b :
  wf_store st →
  IntegerConverter seg = Some i →
  let r := mkRequest "PATCH" ("/api/students/modify/" +:+ seg) b in
  full_dispatch_request (full_dispatch_request st r).2 r = full_dispatch_request st r.
Proof.
  intros Hwf Hseg r. unfold r, full_dispatch_request.
  rewrite !(route_patch_student _ _ _ _ Hseg).
  destruct (table st !! i) as [s|] eqn:Hi.
  - destruct (wf_store_lookup _ _ _ Hwf Hi) as (Hid & _).
    assert (Hpk : pk (patched s b) = Some i) by (by rewrite <- Hid).
    rewrite (patch_student_found _ _ _ _ Hi).
    destruct (Student_save st (PyStudent (patched s b))) as [x|[o st']] eqn:Hs.
    + cbn [snd]. by rewrite (patch_student_found _ _ _ _ Hi), Hs.
    + destruct (save_persistent_full _ _ _ _ _ Hpk Hs)
        as (n & e & a & c & Hn & He & Ha & Hc & _ & _ & _ & -> & ->).
      rewrite dump_obj_loaded. cbn [mbind exn_bind snd].
      rewrite (patch_student_found _ i (mkStudent i n e a c) b) by apply lookup_insert_eq.
      rewrite (patched_again s b i n e a c Hid Hn He Ha Hc).
      by rewrite (save_again _ _ _ _ _ Hpk Hs), dump_obj_loaded.
  - unfold patch_student. rewrite (get_by_id_absent _ _ Hi). cbn.
    by rewrite (get_by_id_absent _ _ Hi).
Qed.

Lemma update_keeps_ids st inst k :
  pk inst = Some k →
  let v := match
             match Student_save st (PyStudent inst) with
             | inl _ => inr ((Text "Fail saving to db", 500), st)
             | inr (o, st') => response ← dump_obj o; inr ((Json response, 200), st')
             end
           with
           | inr out => out
           | inl e => (handle_exception e, st)
           end in
  dom (table v.2) = dom (table st) ∧ autoinc v.2 = autoinc st.
Proof.
  intros Hpk v. unfold v.
  destruct (Student_save st (PyStudent inst)) as [x|[o st']] eqn:Hs; [done|].
  destruct (save_persistent_full _ _ _ _ _ Hpk Hs)
    as (n & e & a & c & _ & _ & _ & _ & _ & _ & Hk & -> & ->).
  rewrite dump_obj_loaded. cbn. split; [|done].
  by apply dom_insert_lookup_L.
Qed.

(** X10: PATCH and PUT never add or remove a row, and never move the
    counter: whatever the id and the body, the set of ids of the table and
    the counter are after the request what they were before it. *)
Theorem updates_keep_the_ids st seg i b :
  IntegerConverter seg = Some i →
  let put := full_dispatch_request st
               (mkRequest "PUT" ("/api/students/change/" +:+ seg) b) in
  let patch := full_dispatch_request st
                 (mkRequest "PATCH" ("/api/students/modify/" +:+ seg) b) in
  dom (table put.2) = dom (table st) ∧ autoinc put.2 = autoinc st
  ∧ dom (table patch.2) = dom (table st) ∧ autoinc patch.2 = autoinc st.
Proof.
  intros Hseg put patch. unfold put, patch, full_dispatch_request.
  rewrite (route_put_student _ _ _ _ Hseg), (route_patch_student _ _ _ _ Hseg).
  destruct (table st !! i) as [s|] eqn:Hi.
  - rewrite (put_student_found _ _ _ _ Hi), (patch_student_found _ _ _ _ Hi).
    destruct (update_keeps_ids st (replaced s b) (id s) eq_refl) as [H1 H2].
    destruct (update_keeps_ids st (patched s b) (id s) eq_refl) as [H3 H4].
    done.
  - unfold put_student, patch_student. by rewrite (get_by_id_absent _ _ Hi).
Qed.

(** X11: a POST /api/students/add has two outcomes and no other. Either the
    save raises, the answer is 500 and the store is unchanged; or the answer
    is 201 with the record whose id is the counter and whose four fields
    are the stored forms of the body's values, that record is inserted under
    that id, the counter advances by one, and no row held its email or
    its cellphone. *)
Theorem add_student_outcomes st b :
  let out := full_dispatch_request st (mkRequest "POST" "/api/students/add" b) in
  out = ((ErrorPage, 500), st)
  ∨ ∃ n e a c,
      flush_string 120 (Assigned (dict_get b "name")) = inr n
      ∧ flush_string 120 (Assigned (dict_get b "email")) = inr e
      ∧ flush_integer (Assigned (dict_get b "age")) = inr a
      ∧ flush_string 13 (Assigned (dict_get b "cellphone")) = inr c
      ∧ ¬ email_taken (table st) None e
      ∧ ¬ cellphone_taken (table st) None c
      ∧ out = ((Json (dump (mkStudent (autoinc st) n e a c)), 201),
               mkStore (<[autoinc st := mkStudent (autoinc st) n e a c]> (table st))
                       (autoinc st + 1)).
Proof.
  intros out.
  destruct (Student_save st (Student_init (dict_get b "name") (dict_get b "email")
                               (dict_get b "age") (dict_get b "cellphone")))
    as [x|[o st']] eqn:Hs.
  - left. by apply (add_student_raises _ _ x).
  - right. revert Hs.
    unfold Student_save, Student_init; cbn [pk _name _email _age _cellphone].
    destruct (flush_string 120 (Assigned (dict_get b "name"))) as [|n] eqn:Hn; [done|].
    destruct (flush_string 120 (Assigned (dict_get b "email"))) as [|e] eqn:He; [done|].
    destruct (flush_integer (Assigned (dict_get b "age"))) as [|a] eqn:Ha; [done|].
    destruct (flush_string 13 (Assigned (dict_get b "cellphone"))) as [|c] eqn:Hc; [done|].
    cbn [mbind exn_bind is_assigned andb].
    destruct (bool_decide (email_taken _ _ _)) eqn:Hce; [done|].
    destruct (bool_decide (cellphone_taken _ _ _)) eqn:Hcc; [done|].
    intros [= <- <-]. apply bool_decide_eq_false_1 in Hce, Hcc.
    exists n, e, a, c. split_and!; try done.
    unfold out. apply full_dispatch_inr. rewrite route_add_student.
    unfold add_student.
    rewrite (save_transient_ok st n e a c _ _ _ _ Hn He Ha Hc Hce Hcc).
    cbn [mbind exn_bind]. by rewrite dump_obj_loaded.
Qed.

(** X12: on a body that holds all four fields with values that are not
    null, PATCH /api/students/modify/{id} and PUT /api/students/change/{id}
    do the same: same answer, same store, for every id. *)
Theorem patch_is_put_on_a_full_body st seg i b :
  IntegerConverter seg = Some i →
  (∀ k, k ∈ ["name"; "email"; "age"; "cellphone"]%string →
        ∃ v, b !! k = Some v ∧ v ≠ JNull) →
  full_dispatch_request st (mkRequest "PATCH" ("/api/students/modify/" +:+ seg) b)
  = full_dispatch_request st (mkRequest "PUT" ("/api/students/change/" +:+ seg) b).
Proof.
  clear py_int. intros Hseg Hb. unfold full_dispatch_request.
  rewrite (route_put_student _ _ _ _ Hseg), (route_patch_student _ _ _ _ Hseg).
  destruct (table st !! i) as [s|] eqn:Hi.
  - rewrite (put_student_found _ _ _ _ Hi), (patch_student_found _ _ _ _ Hi).
    replace (patched s b) with (replaced s b); [done|].
    destruct (Hb "name"%string) as (vn & Hn & Hnn); [apply list_elem_of_In; cbn; tauto|].
    destruct (Hb "email"%string) as (ve & He & Hne); [apply list_elem_of_In; cbn; tauto|].
    destruct (Hb "age"%string) as (va & Ha & Hna); [apply list_elem_of_In; cbn; tauto|].
    destruct (Hb "cellphone"%string) as (vc & Hc & Hnc); [apply list_elem_of_In; cbn; tauto|].
    unfold replaced, patched, dict_get, dict_get_or. rewrite Hn, He, Ha, Hc. cbn.
    by destruct vn, ve, va, vc.
  - unfold put_student, patch_student. by rewrite (get_by_id_absent _ _ Hi).
Qed.

Lemma flush_string_null len : flush_string len (Assigned JNull) = inl IntegrityError.
Proof. reflexivity. Qed.

Lemma flush_integer_null : flush_integer (Assigned JNull) = inl IntegrityError.
Proof. reflexivity. Qed.

(** A save of an instance with [None] assigned to an attribute raises. *)
Lemma save_null_raises st inst :
  _name inst = Assigned JNull ∨ _email inst = Assigned JNull
  ∨ _age inst = Assigned JNull ∨ _cellphone inst = Assigned JNull →
  ∃ x, Student_save st (PyStudent inst) = inl x.
Proof.
  intros H. unfold Student_save.
  destruct H as [H|[H|[H|H]]]; rewrite H.
  - rewrite flush_string_null. eauto.
  - destruct (flush_string 120 (_name inst)); [eauto|].
    rewrite flush_string_null. eauto.
  - destruct (flush_string 120 (_name inst)); [eauto|].
    destruct (flush_string 120 (_email inst)); [eauto|].
    rewrite flush_integer_null. eauto.
  - destruct (flush_string 120 (_name inst)); [eauto|].
    destruct (flush_string 120 (_email inst)); [eauto|].
    destruct (flush_integer (_age inst)); [eauto|].
    rewrite flush_string_null. eauto.
Qed.


(** X14: a POST /api/students/add whose body misses one of the four keys,
    or holds it with the value null, is answered 500 and leaves the store
    unchanged, whatever the other fields are: nothing is validated before
    the insert and no column is nullable. *)
Theorem add_student_incomplete_is_500 st b k :
  k ∈ ["name"; "email"; "age"; "cellphone"]%string →
  dict_get b k = JNull →
  full_dispatch_request st (mkRequest "POST" "/api/students/add" b)
  = ((ErrorPage, 500), st).
Proof.
  intros Hk Hb.
  destruct (save_null_raises st
              (mkInstance None (Assigned (dict_get b "name")) (Assigned (dict_get b "email"))
                 (Assigned (dict_get b "age")) (Assigned (dict_get b "cellphone"))))
    as [x Hx].
  - cbn [_name _email _age _cellphone].
    repeat (apply elem_of_cons in Hk as [->|Hk]); [..|by apply elem_of_nil in Hk];
      rewrite Hb; tauto.
  - by apply (add_student_raises _ _ x).
Qed.

(** X15: in a well-formed store, a PATCH /api/students/modify/{id} on an
    existing id whose body holds none of the four fields (the empty body, or
    only nulls and other keys) returns the record as it is with status 200
    and leaves the store exactly as it was. *)
Theorem patch_student_nothing_to_apply st seg i s b :
  wf_store st →
  IntegerConverter seg = Some i →
  table st !! i = Some s →
  (∀ k, k ∈ ["name"; "email"; "age"; "cellphone"]%string → dict_get b k = JNull) →
  full_dispatch_request st (mkRequest "PATCH" ("/api/students/modify/" +:+ seg) b)
  = ((Json (dump s), 200), st).
Proof.
  intros Hwf Hseg Hi Hb.
  destruct (wf_store_lookup _ _ _ Hwf Hi) as (Hid & _).
  apply full_dispatch_inr.
  rewrite (route_patch_student _ _ _ _ Hseg), (patch_student_found _ _ _ _ Hi).
  assert (Hp : patched s b = loaded s).
  { unfold patched, loaded.
    rewrite (Hb "name"%string), (Hb "email"%string), (Hb "age"%string),
      (Hb "cellphone"%string); try (apply list_elem_of_In; cbn; tauto).
    done. }
  destruct (wf_store_lookup _ _ _ Hwf Hi) as (_ & _ & _ & _ & _ & _ & Hne & Hnc).
  assert (Hpk : pk (loaded s) = Some i) by (cbn; by rewrite Hid).
  assert (Hk : is_Some (table st !! i)) by (by rewrite Hi).
  rewrite Hp,
    (save_persistent_ok st (loaded s) i (name s) (email s) (age s) (cellphone s)
       Hpk Hk eq_refl eq_refl eq_refl eq_refl Hne Hnc).
  rewrite dump_obj_loaded. cbn [mbind exn_bind]. destruct s as [i' n e a c].
  cbn in Hid. subst i'. cbn [name email age cellphone].
  rewrite insert_id by done. by destruct st.
Qed.

(** ** How requests compose *)

Lemma update_then_get st i s inst d (v : exn + (response * store)) seg b' :
  IntegerConverter seg = Some i →
  pk inst = Some i →
  v = match Student_save st (PyStudent inst) with
      | inl _ => inr ((Text "Fail saving to db", 500), st)
      | inr (o, st') => response ← dump_obj o; inr ((Json response, 200), st')
      end →
  table st !! i = Some s →
  (match v with inr out => out | inl e => (handle_exception e, st) end).1 = (Json d, 200) →
  full_dispatch_request
    (match v with inr out => out | inl e => (handle_exception e, st) end).2
    (mkRequest "GET" ("/api/students/get/" +:+ seg) b')
  = ((Json d, 200),
     (match v with inr out => out | inl e => (handle_exception e, st) end).2).
Proof.
  intros Hseg Hpk Hv Hi.
  destruct (update_outcome _ _ _ _ Hpk Hv) as [->|(n & e & a & c & _ & _ & _ & _ & ->)];
    [done|].
  cbn [fst snd]. intros [= <-]. apply full_dispatch_inr.
  rewrite (route_get_student _ _ _ _ Hseg). unfold get_student.
  rewrite (get_by_id_found _ i (mkStudent i n e a c)) by apply lookup_insert_eq.
  cbn [mbind exn_bind]. by rewrite dump_obj_loaded.
Qed.

(** X16: read your writes. In a well-formed store, when a PUT or a PATCH on
    an id is answered 200 with a record, a GET /api/students/get/{id} on the
    store it leaves is answered 200 with the same record. *)
Theorem update_then_get_agree st seg i b b' d :
  wf_store st →
  IntegerConverter seg = Some i →
  let put := full_dispatch_request st
               (mkRequest "PUT" ("/api/students/change/" +:+ seg) b) in
  let patch := full_dispatch_request st
                 (mkRequest "PATCH" ("/api/students/modify/" +:+ seg) b) in
  let get st' := full_dispatch_request st'
                   (mkRequest "GET" ("/api/students/get/" +:+ seg) b') in
  (put.1 = (Json d, 200) → get put.2 = ((Json d, 200), put.2))
  ∧ (patch.1 = (Json d, 200) → get patch.2 = ((Json d, 200), patch.2)).
Proof.
  intros Hwf Hseg put patch get.
  destruct (table st !! i) as [s|] eqn:Hi.
  - destruct (wf_store_lookup _ _ _ Hwf Hi) as (Hid & _).
    assert (Hput : put = match put_student i b st with
                         | inr out => out
                         | inl e => (handle_exception e, st)
                         end).
    { unfold put, full_dispatch_request. by rewrite (route_put_student _ _ _ _ Hseg). }
    assert (Hpatch : patch = match patch_student i b st with
                             | inr out => out
                             | inl e => (handle_exception e, st)
                             end).
    { unfold patch, full_dispatch_request.
      by rewrite (route_patch_student _ _ _ _ Hseg). }
    rewrite Hput, Hpatch. unfold get. split.
    + apply (update_then_get st i s (replaced s b) d _ seg b' Hseg);
        [cbn; by rewrite Hid|by apply put_student_found|done].
    + apply (update_then_get st i s (patched s b) d _ seg b' Hseg);
        [cbn; by rewrite Hid|by apply patch_student_found|done].
  - unfold put, patch, full_dispatch_request.
    rewrite (route_put_student _ _ _ _ Hseg), (route_patch_student _ _ _ _ Hseg).
    unfold put_student, patch_student. by rewrite (get_by_id_absent _ _ Hi).
Qed.

Lemma save_transient_inv st vn ve va vc o st' :
  Student_save st (Student_init vn ve va vc) = inr (o, st') →
  ∃ s, id s = autoinc st ∧ o = PyStudent (loaded s)
       ∧ st' = mkStore (<[autoinc st := s]> (table st)) (autoinc st + 1).
Proof.
  unfold Student_save, Student_init; cbn [pk _name _email _age _cellphone].
  destruct (flush_string 120 (Assigned vn)) as [|n]; [done|].
  destruct (flush_string 120 (Assigned ve)) as [|e]; [done|].
  destruct (flush_integer (Assigned va)) as [|a]; [done|].
  destruct (flush_string 13 (Assigned vc)) as [|c]; [done|].
  cbn [mbind exn_bind]. repeat case_match; try done.
  intros [= <- <-]. by exists (mkStudent (autoinc st) n e a c).
Qed.

(** X17: create, then delete. In a well-formed store, when a POST
    /api/students/add is answered 201, a DELETE /api/students/delete/{id} of
    the id it issued is answered 200 "deleted" and leaves the table the POST
    found; the counter stays advanced, so the id is not issued again. *)
Theorem add_then_delete st b seg b' :
  wf_store st →
  IntegerConverter seg = Some (autoinc st) →
  let out := full_dispatch_request st (mkRequest "POST" "/api/students/add" b) in
  out.1.2 = 201 →
  full_dispatch_request out.2
    (mkRequest "DELETE" ("/api/students/delete/" +:+ seg) b')
  = ((Text "deleted", 200), mkStore (table st) (autoinc st + 1)).
Proof.
  intros Hwf Hseg out.
  assert (Hout : out = match add_student b st with
                       | inr o => o
                       | inl e => (handle_exception e, st)
                       end).
  { unfold out, full_dispatch_request. by rewrite route_add_student. }
  clearbody out. subst out. unfold add_student.
  destruct (Student_save st _) as [x|[o st']] eqn:Hs.
  - cbn. by destruct x.
  - destruct (save_transient_inv _ _ _ _ _ _ _ Hs) as (s & Hid & -> & ->).
    cbn [mbind exn_bind]. rewrite dump_obj_loaded.
    cbn [mbind exn_bind mret exn_ret fst snd]. intros _.
    apply full_dispatch_inr. rewrite (route_delete_student _ _ _ _ Hseg).
    rewrite (delete_student_found _ _ s) by apply lookup_insert_eq.
    cbn [table autoinc]. rewrite Hid, delete_insert_eq, delete_id; [done|].
    by apply wf_store_fresh.
Qed.

(** X18: a write touches one row. In a well-formed store, PUT, PATCH and
    DELETE on an id leave every row under another id as it was, and a POST
    leaves every row of the table as it was (it never overwrites: the only
    key it writes is the counter, which holds no row). *)
Theorem writes_touch_one_row st seg i b :
  wf_store st →
  IntegerConverter seg = Some i →
  let put := full_dispatch_request st
               (mkRequest "PUT" ("/api/students/change/" +:+ seg) b) in
  let patch := full_dispatch_request st
                 (mkRequest "PATCH" ("/api/students/modify/" +:+ seg) b) in
  let del := full_dispatch_request st
               (mkRequest "DELETE" ("/api/students/delete/" +:+ seg) b) in
  let post := full_dispatch_request st (mkRequest "POST" "/api/students/add" b) in
  (∀ j, j ≠ i →
     table put.2 !! j = table st !! j
     ∧ table patch.2 !! j = table st !! j
     ∧ table del.2 !! j = table st !! j)
  ∧ (∀ j s, table st !! j = Some s → table post.2 !! j = Some s).
Proof.
  intros Hwf Hseg put patch del post.
  assert (Hupd : ∀ inst, pk inst = Some i → ∀ j, j ≠ i →
    table (match
             match Student_save st (PyStudent inst) with
             | inl _ => inr ((Text "Fail saving to db", 500), st)
             | inr (o, st') => response ← dump_obj o; inr ((Json response, 200), st')
             end
           with
           | inr out => out
           | inl e => (handle_exception e, st)
           end).2 !! j = table st !! j).
  { intros inst Hpk j Hj.
    destruct (Student_save st (PyStudent inst)) as [x|[o st']] eqn:Hs; [done|].
    destruct (save_persistent_full _ _ _ _ _ Hpk Hs)
      as (n & e & a & c & _ & _ & _ & _ & _ & _ & _ & -> & ->).
    rewrite dump_obj_loaded. cbn. by apply lookup_insert_ne. }
  split.
  - intros j Hj. unfold put, patch, del, full_dispatch_request.
    rewrite (route_put_student _ _ _ _ Hseg), (route_patch_student _ _ _ _ Hseg),
      (route_delete_student _ _ _ _ Hseg).
    destruct (table st !! i) as [s|] eqn:Hi.
    + destruct (wf_store_lookup _ _ _ Hwf Hi) as (Hid & _).
      rewrite (put_student_found _ _ _ _ Hi), (patch_student_found _ _ _ _ Hi),
        (delete_student_found _ _ _ Hi).
      split_and!.
      * apply Hupd; [cbn; by rewrite Hid|done].
      * apply Hupd; [cbn; by rewrite Hid|done].
      * cbn. rewrite Hid. by apply lookup_delete_ne.
    + unfold put_student, patch_student, delete_student.
      by rewrite (get_by_id_absent _ _ Hi).
  - intros j s Hj. unfold post, full_dispatch_request.
    rewrite route_add_student. unfold add_student.
    destruct (Student_save st _) as [x|[o st']] eqn:Hs; [done|].
    destruct (save_transient_inv _ _ _ _ _ _ _ Hs) as (s' & Hid & -> & ->).
    cbn [mbind exn_bind]. rewrite dump_obj_loaded. cbn.
    rewrite lookup_insert_ne; [done|].
    intros Heq. rewrite <- Heq, (wf_store_fresh _ Hwf) in Hj. done.
Qed.

(** ** The schema and the fixed routes *)

(** X19: the dict [StudentSchema] dumps has the five keys id, name, email,
    age and cellphone and no other, and it determines the record: two
    records with the same dump are the same record. *)
Theorem dump_keys_and_injective s1 s2 :
  (∀ k, is_Some (dump s1 !! k) ↔ k ∈ ["id"; "name"; "email"; "age"; "cellphone"]%string)
  ∧ (dump s1 = dump s2 → s1 = s2).
Proof.
  split.
  - intros k. rewrite <- elem_of_dom.
    replace (dom (dump s1))
      with (list_to_set ["id"; "name"; "email"; "age"; "cellphone"]%string : gset string)
      by (by vm_compute).
    by rewrite elem_of_list_to_set.
  - intros H.
    assert (Hi : Some (JNum (id s1)) = Some (JNum (id s2)))
      by (change (dump s1 !! "id"%string = dump s2 !! "id"%string); by rewrite H).
    assert (Hn : Some (JStr (name s1)) = Some (JStr (name s2)))
      by (change (dump s1 !! "name"%string = dump s2 !! "name"%string); by rewrite H).
    assert (He : Some (JStr (email s1)) = Some (JStr (email s2)))
      by (change (dump s1 !! "email"%string = dump s2 !! "email"%string); by rewrite H).
    assert (Ha : Some (JNum (age s1)) = Some (JNum (age s2)))
      by (change (dump s1 !! "age"%string = dump s2 !! "age"%string); by rewrite H).
    assert (Hc : Some (JStr (cellphone s1)) = Some (JStr (cellphone s2)))
      by (change (dump s1 !! "cellphone"%string = dump s2 !! "cellphone"%string);
          by rewrite H).
    destruct s1, s2; cbn in *. by simplify_eq.
Qed.

(** The three fixed GET routes besides the failing probe answer 200
    with a fixed body in every store and for every body, and leave the store
    as it was: the greeting on /, "Ok" on /api/health-check/ok, the
    documentation page on /api. *)
Lemma fixed_routes st b :
  full_dispatch_request st (mkRequest "GET" "/" b)
  = ((Text "<p>Hello from students API!</p>", 200), st)
  ∧ full_dispatch_request st (mkRequest "GET" "/api/health-check/ok" b)
    = ((Text "Ok", 200), st)
  ∧ full_dispatch_request st (mkRequest "GET" "/api" b) = ((SwaggerUi, 200), st).
Proof. split_and!; reflexivity. Qed.

End app.

(** ** The development at the strict engine, on concrete requests *)

Lemma strict_varchar_str len s :
  (String.length s ≤ len)%nat → strict_varchar len (JStr s) = Some s.
Proof.
  intros H. unfold strict_varchar.
  by rewrite (proj2 (Nat.leb_le _ _) H).
Qed.

Lemma strict_integer_num z : int_column z → strict_integer (JNum z) = Some z.
Proof.
  unfold int_column, strict_integer. intros [H1 H2].
  by rewrite (proj2 (Z.leb_le _ _) H1), (proj2 (Z.leb_le _ _) H2).
Qed.

Lemma two_students_wf : wf_store two_students.
Proof. compute_done. Qed.

(** The table of the examples is one the application reaches from the empty
    table: two students are created, then a PUT without an email key blanks
    the email of the second. *)
Lemma two_students_reachable :
  serve strict_varchar strict_integer empty_store
    [ mkRequest "POST" "/api/students/add"
        {[ "name"%string := JStr "Ann"; "email"%string := JStr "ann@example.org";
           "age"%string := JNum 20; "cellphone"%string := JStr "111" ]};
      mkRequest "POST" "/api/students/add"
        {[ "name"%string := JStr "Bob"; "email"%string := JStr "bob@example.org";
           "age"%string := JNum 21; "cellphone"%string := JStr "222" ]};
      mkRequest "PUT" "/api/students/change/2"
        {[ "name"%string := JStr "Bob"; "age"%string := JNum 21;
           "cellphone"%string := JStr "222" ]} ]
  = two_students.
Proof. vm_compute. reflexivity. Qed.

(** A few requests, run. *)

Example get_existing_student :
  full_dispatch_request strict_varchar strict_integer two_students
    (mkRequest "GET" "/api/students/get/1" ∅)
  = ((Json (dump ann), 200), two_students).
Proof. vm_compute. reflexivity. Qed.

Example negative_id_matches_no_rule :
  full_dispatch_request strict_varchar strict_integer two_students
    (mkRequest "GET" "/api/students/get/-1" ∅)
  = ((ErrorPage, 404), two_students).
Proof. vm_compute. reflexivity. Qed.

Example post_on_a_get_rule :
  full_dispatch_request strict_varchar strict_integer two_students
    (mkRequest "POST" "/api/students" ∅)
  = ((ErrorPage, 405), two_students).
Proof. vm_compute. reflexivity. Qed.

Example put_with_null_name :
  full_dispatch_request strict_varchar strict_integer two_students
    (mkRequest "PUT" "/api/students/change/2"
       {[ "name"%string := JNull; "email"%string := JStr "bob@example.org";
          "age"%string := JNum 21; "cellphone"%string := JStr "222" ]})
  = ((Text "Fail saving to db", 500), two_students).
Proof. vm_compute. reflexivity. Qed.

Example patch_with_null_name_keeps_it :
  (full_dispatch_request strict_varchar strict_integer two_students
     (mkRequest "PATCH" "/api/students/modify/2"
        {[ "name"%string := JNull; "email"%string := JStr "bob@example.org" ]})).1
  = (Json (dump (mkStudent 2 "Bob" "bob@example.org" 21 "222")), 200).
Proof. vm_compute. reflexivity. Qed.

Example load_refuses_unknown_key :
  load (λ _, None) {[ "nickname"%string := JStr "B" ]} = None.
Proof. vm_compute. reflexivity. Qed.

Lemma absent_id_is_404_witness :
  IntegerConverter "7" = Some 7
  ∧ table two_students !! 7 = None
  ∧ full_dispatch_request strict_varchar strict_integer two_students
      (mkRequest "PUT" "/api/students/change/7" {[ "name"%string := JStr "X" ]})
    = ((ErrorPage, 404), two_students).
Proof.
  split; [reflexivity|]. split; [reflexivity|].
  apply (absent_id_is_404 strict_varchar strict_integer two_students "7" 7
           {[ "name"%string := JStr "X" ]}); reflexivity.
Defined.

Lemma delete_then_get_is_404_witness :
  wf_store two_students
  ∧ IntegerConverter "2" = Some 2
  ∧ table two_students !! 2 = Some bob
  ∧ (full_dispatch_request strict_varchar strict_integer two_students
       (mkRequest "DELETE" "/api/students/delete/2" ∅)).1 = (Text "deleted", 200).
Proof.
  split; [compute_done|].
  split; [reflexivity|]. split; [reflexivity|].
  apply (delete_then_get_is_404 strict_varchar strict_integer two_students "2" 2 bob ∅ ∅);
    [compute_done|reflexivity|reflexivity].
Defined.

Lemma add_student_duplicate_is_500_witness :
  wf_store two_students
  ∧ table two_students !! 1 = Some ann
  ∧ full_dispatch_request strict_varchar strict_integer two_students
      (mkRequest "POST" "/api/students/add"
         {[ "name"%string := JStr "Cy"; "email"%string := JStr "ann@example.org";
            "age"%string := JNum 22; "cellphone"%string := JStr "333" ]})
    = ((ErrorPage, 500), two_students).
Proof.
  split; [compute_done|].
  split; [reflexivity|].
  apply (add_student_duplicate_is_500 strict_varchar strict_integer
           strict_varchar_str two_students _ 1 ann);
    [compute_done|reflexivity|left; reflexivity].
Defined.

Lemma add_student_creates_witness :
  wf_store two_students
  ∧ ¬ email_taken (table two_students) None "cy@example.org"
  ∧ ¬ cellphone_taken (table two_students) None "333"
  ∧ (full_dispatch_request strict_varchar strict_integer two_students
       (mkRequest "POST" "/api/students/add"
          {[ "name"%string := JStr "Cy"; "email"%string := JStr "cy@example.org";
             "age"%string := JNum 22; "cellphone"%string := JStr "333" ]})).1
    = (Json (dump (mkStudent 3 "Cy" "cy@example.org" 22 "333")), 201).
Proof.
  split; [compute_done|].
  split; [compute_done|].
  split; [compute_done|].
  apply (add_student_creates strict_varchar strict_integer
           strict_varchar_str strict_integer_num two_students _
           "Cy" "cy@example.org" 22 "333" "3" ∅);
    try reflexivity; try (compute_done);
    try (cbn; lia); unfold int_column; lia.
Defined.





(** The claim C4 as stated fails: the email and the cellphone of this
    payload are held by no row, yet the POST is not answered 201. The
    payload has no name; the column is not nullable, the insert raises, no
    view catches it, the answer is 500 and no row is created. *)
Lemma add_student_without_name :
  wf_store two_students
  ∧ ¬ email_taken (table two_students) None "cy@example.org"
  ∧ ¬ cellphone_taken (table two_students) None "333"
  ∧ full_dispatch_request strict_varchar strict_integer two_students
      (mkRequest "POST" "/api/students/add"
         {[ "email"%string := JStr "cy@example.org";
            "age"%string := JNum 22; "cellphone"%string := JStr "333" ]})
    = ((ErrorPage, 500), two_students).
Proof.
  split; [exact two_students_wf|].
  split; [compute_done|].
  split; [compute_done|].
  vm_compute; reflexivity.
Qed.

(** ** The further properties, on concrete requests *)

Lemma strict_varchar_fits len v s :
  strict_varchar len v = Some s → (String.length s ≤ len)%nat.
Proof.
  unfold strict_varchar. destruct v; try done.
  destruct (Nat.leb_spec (String.length s0) len); [|done]. by intros [= <-].
Qed.

Lemma strict_integer_fits v z : strict_integer v = Some z → int_column z.
Proof.
  unfold strict_integer, int_column. destruct v; try done.
  destruct (Z.leb_spec (-2147483648) z0), (Z.leb_spec z0 2147483647); try done.
  by intros [= <-].
Qed.

Lemma serve_keeps_wf_witness :
  wf_store two_students
  ∧ wf_store
      (serve strict_varchar strict_integer two_students
         [ mkRequest "PUT" "/api/students/change/1" {[ "name"%string := JStr "X" ]};
           mkRequest "DELETE" "/api/students/delete/2" ∅;
           mkRequest "PUT" "/api/students/change/1" {[ "name"%string := JStr "X" ]} ]).
Proof.
  split; [compute_done|].
  apply (serve_keeps_wf strict_varchar strict_integer
           strict_varchar_fits strict_integer_fits).
  compute_done.
Defined.

Lemma get_student_found_witness :
  IntegerConverter "1" = Some 1
  ∧ table two_students !! 1 = Some ann
  ∧ full_dispatch_request strict_varchar strict_integer two_students
      (mkRequest "GET" "/api/students/get/1" ∅)
    = ((Json (dump ann), 200), two_students).
Proof.
  split; [reflexivity|]. split; [reflexivity|].
  apply (get_student_found strict_varchar strict_integer two_students "1" 1 ann ∅);
    reflexivity.
Defined.


Lemma views_read_four_keys_witness :
  IntegerConverter "1" = Some 1
  ∧ full_dispatch_request strict_varchar strict_integer two_students
      (mkRequest "PUT" "/api/students/change/1"
         {[ "name"%string := JStr "X"; "email"%string := JStr "x@example.org" ]})
    = full_dispatch_request strict_varchar strict_integer two_students
        (mkRequest "PUT" "/api/students/change/1"
           {[ "name"%string := JStr "X"; "email"%string := JStr "x@example.org";
              "id"%string := JNum 99 ]}).
Proof.
  split; [reflexivity|].
  apply (views_read_four_keys strict_varchar strict_integer two_students "1" 1
           {[ "name"%string := JStr "X"; "email"%string := JStr "x@example.org" ]}
           {[ "name"%string := JStr "X"; "email"%string := JStr "x@example.org";
              "id"%string := JNum 99 ]}); [reflexivity|].
  intros k Hk.
  repeat (apply elem_of_cons in Hk as [->|Hk]); [..|by apply elem_of_nil in Hk];
    reflexivity.
Defined.


Lemma put_student_idempotent_witness :
  wf_store two_students
  ∧ IntegerConverter "2" = Some 2
  ∧ full_dispatch_request strict_varchar strict_integer
      (full_dispatch_request strict_varchar strict_integer two_students
         (mkRequest "PUT" "/api/students/change/2" {[ "name"%string := JStr "X" ]})).2
      (mkRequest "PUT" "/api/students/change/2" {[ "name"%string := JStr "X" ]})
    = full_dispatch_request strict_varchar strict_integer two_students
        (mkRequest "PUT" "/api/students/change/2" {[ "name"%string := JStr "X" ]}).
Proof.
  split; [compute_done|]. split; [reflexivity|].
  apply (put_student_idempotent strict_varchar strict_integer two_students "2" 2
           {[ "name"%string := JStr "X" ]}); [compute_done|reflexivity].
Defined.

Lemma patch_student_idempotent_witness :
  wf_store two_students
  ∧ IntegerConverter "2" = Some 2
  ∧ full_dispatch_request strict_varchar strict_integer
      (full_dispatch_request strict_varchar strict_integer two_students
         (mkRequest "PATCH" "/api/students/modify/2" {[ "age"%string := JNum 30 ]})).2
      (mkRequest "PATCH" "/api/students/modify/2" {[ "age"%string := JNum 30 ]})
    = full_dispatch_request strict_varchar strict_integer two_students
        (mkRequest "PATCH" "/api/students/modify/2" {[ "age"%string := JNum 30 ]}).
Proof.
  split; [compute_done|]. split; [reflexivity|].
  apply (patch_student_idempotent strict_varchar strict_integer two_students "2" 2
           {[ "age"%string := JNum 30 ]}); [compute_done|reflexivity].
Defined.

Lemma updates_keep_the_ids_witness :
  IntegerConverter "2" = Some 2
  ∧ dom (table (full_dispatch_request strict_varchar strict_integer two_students
                  (mkRequest "PUT" "/api/students/change/2"
                     {[ "name"%string := JStr "X" ]})).2)
    = dom (table two_students).
Proof.
  split; [reflexivity|].
  exact (proj1 (updates_keep_the_ids strict_varchar strict_integer two_students "2" 2
                  {[ "name"%string := JStr "X" ]} eq_refl)).
Defined.

Lemma patch_is_put_on_a_full_body_witness :
  IntegerConverter "2" = Some 2
  ∧ full_dispatch_request strict_varchar strict_integer two_students
      (mkRequest "PATCH" "/api/students/modify/2"
         {[ "name"%string := JStr "Bo"; "email"%string := JStr "bo@example.org";
            "age"%string := JNum 30; "cellphone"%string := JStr "333" ]})
    = full_dispatch_request strict_varchar strict_integer two_students
        (mkRequest "PUT" "/api/students/change/2"
           {[ "name"%string := JStr "Bo"; "email"%string := JStr "bo@example.org";
              "age"%string := JNum 30; "cellphone"%string := JStr "333" ]}).
Proof.
  split; [reflexivity|].
  apply (patch_is_put_on_a_full_body strict_varchar strict_integer two_students "2" 2);
    [reflexivity|].
  intros k Hk.
  repeat (apply elem_of_cons in Hk as [->|Hk]); [..|by apply elem_of_nil in Hk];
    eexists; (split; [reflexivity|discriminate]).
Defined.


Lemma add_student_incomplete_is_500_witness :
  dict_get {[ "name"%string := JStr "Cy"; "email"%string := JStr "cy@example.org";
              "age"%string := JNum 22 ]} "cellphone" = JNull
  ∧ full_dispatch_request strict_varchar strict_integer two_students
      (mkRequest "POST" "/api/students/add"
         {[ "name"%string := JStr "Cy"; "email"%string := JStr "cy@example.org";
            "age"%string := JNum 22 ]})
    = ((ErrorPage, 500), two_students).
Proof.
  split; [reflexivity|].
  apply (add_student_incomplete_is_500 strict_varchar strict_integer two_students
           _ "cellphone"); [compute_done|reflexivity].
Defined.

Lemma patch_student_nothing_to_apply_witness :
  wf_store two_students
  ∧ IntegerConverter "1" = Some 1
  ∧ table two_students !! 1 = Some ann
  ∧ full_dispatch_request strict_varchar strict_integer two_students
      (mkRequest "PATCH" "/api/students/modify/1" {[ "name"%string := JNull ]})
    = ((Json (dump ann), 200), two_students).
Proof.
  split; [compute_done|]. split; [reflexivity|]. split; [reflexivity|].
  apply (patch_student_nothing_to_apply strict_varchar strict_integer two_students
           "1" 1 ann {[ "name"%string := JNull ]});
    [compute_done|reflexivity|reflexivity|].
  intros k Hk.
  repeat (apply elem_of_cons in Hk as [->|Hk]); [..|by apply elem_of_nil in Hk];
    reflexivity.
Defined.

Lemma update_then_get_agree_witness :
  wf_store two_students
  ∧ IntegerConverter "2" = Some 2
  ∧ full_dispatch_request strict_varchar strict_integer
      (full_dispatch_request strict_varchar strict_integer two_students
         (mkRequest "PUT" "/api/students/change/2" {[ "name"%string := JStr "X" ]})).2
      (mkRequest "GET" "/api/students/get/2" ∅)
    = ((Json (dump (mkStudent 2 "X" "" 0 "")), 200),
       (full_dispatch_request strict_varchar strict_integer two_students
          (mkRequest "PUT" "/api/students/change/2" {[ "name"%string := JStr "X" ]})).2).
Proof.
  split; [compute_done|]. split; [reflexivity|].
  refine (proj1 (update_then_get_agree strict_varchar strict_integer two_students "2" 2
                   {[ "name"%string := JStr "X" ]} ∅ (dump (mkStudent 2 "X" "" 0 ""))
                   _ eq_refl) _);
    [compute_done|vm_compute; reflexivity].
Defined.

Lemma add_then_delete_witness :
  wf_store two_students
  ∧ IntegerConverter "3" = Some (autoinc two_students)
  ∧ full_dispatch_request strict_varchar strict_integer
      (full_dispatch_request strict_varchar strict_integer two_students
         (mkRequest "POST" "/api/students/add"
            {[ "name"%string := JStr "Cy"; "email"%string := JStr "cy@example.org";
               "age"%string := JNum 22; "cellphone"%string := JStr "333" ]})).2
      (mkRequest "DELETE" "/api/students/delete/3" ∅)
    = ((Text "deleted", 200), mkStore (table two_students) 4).
Proof.
  split; [compute_done|]. split; [reflexivity|].
  apply (add_then_delete strict_varchar strict_integer two_students
           {[ "name"%string := JStr "Cy"; "email"%string := JStr "cy@example.org";
              "age"%string := JNum 22; "cellphone"%string := JStr "333" ]} "3" ∅);
    [compute_done|reflexivity|vm_compute; reflexivity].
Defined.

Lemma writes_touch_one_row_witness :
  wf_store two_students
  ∧ IntegerConverter "2" = Some 2
  ∧ table (full_dispatch_request strict_varchar strict_integer two_students
             (mkRequest "DELETE" "/api/students/delete/2" ∅)).2 !! 1
    = table two_students !! 1.
Proof.
  split; [compute_done|]. split; [reflexivity|].
  refine (proj2 (proj2 (proj1 (writes_touch_one_row strict_varchar strict_integer
                                 two_students "2" 2 ∅ _ eq_refl) 1 _)));
    [compute_done|lia].
Defined.

